(** * Gesture-driven PDF book reader: the gesture state machine and page navigation

    A shallow embedding of [gesture_detector.py] (class [GestureDetector]),
    [pdf_reader.py] (class [PDFProcessor]) and the gesture dispatch of
    [main.py] ([PDFBookReader.run]).

    Numbers.  Python floats (landmark coordinates, [time.time()] stamps,
    thresholds) are modelled by exact rationals [Q]; Python ints (frame
    counter, page index, vote counts) by [nat] or [Z].  Every concrete
    input below is chosen with margins far wider than a binary64 rounding
    error, so the traces are the same under IEEE arithmetic. *)

From Stdlib Require Import List Bool Arith ZArith QArith Qabs Lia.
From Stdlib Require Import Reals Qreals Psatz.
From Stdlib Require String Ascii DecimalString.
Import ListNotations.

Local Open Scope Q_scope.

(** ** Comparisons on floats, as booleans *)

(** Python [a <= b]. *)
Definition Qleb (a b : Q) : bool := Qle_bool a b.

(** Python [a < b]; [a > b] is written [Qltb b a]. *)
Definition Qltb (a b : Q) : bool := negb (Qle_bool b a).

(** [np.sqrt(v) < r] for a sum of squares [v]: the square root is not a
    rational operation, so the test is decided by squaring; [sqrt_ltb_real]
    below shows that this is the comparison of the real square root. *)
Definition sqrt_ltb (v r : Q) : bool := Qltb 0 r && Qltb v (r * r).

(** ** Page navigation ([pdf_reader.py], [main.py]) *)

(** The gesture value returned by [detect_gesture]: ['left'], ['right'],
    or Python's [None] (the [None] of [option Gesture]). *)
Inductive Gesture : Set := Left | Right.

Module PDF.
Section Pages.

(** A rendered page (a PIL image in the source). *)
Variable Image : Type.

Record PDFProcessor : Type := mkPDF {
  pages : list Image;
  current_page : Z
}.

(** [__init__] after [load_pdf] has filled [pages]. *)
Definition init (ps : list Image) : PDFProcessor :=
  {| pages := ps; current_page := 0%Z |}.

Definition get_page_count (p : PDFProcessor) : Z :=
  Z.of_nat (length (pages p)).

(** [next_page]: the updated object and the returned boolean. *)
Definition next_page (p : PDFProcessor) : PDFProcessor * bool :=
  if (current_page p <? get_page_count p - 1)%Z
  then ({| pages := pages p;
           current_page := Z.min (current_page p + 2) (get_page_count p - 1) |},
        true)
  else (p, false).

Definition previous_page (p : PDFProcessor) : PDFProcessor * bool :=
  if (0 <? current_page p)%Z
  then ({| pages := pages p;
           current_page := Z.max (current_page p - 2) 0 |},
        true)
  else (p, false).

(** The gesture dispatch of [PDFBookReader.run]. *)
Definition handle_gesture (gesture : option Gesture) (p : PDFProcessor)
  : PDFProcessor :=
  match gesture with
  | Some Left => fst (next_page p)
  | Some Right => fst (previous_page p)
  | None => p
  end.

(** A navigation call on the processor. *)
Inductive Nav : Set := Next | Previous.

Definition nav (p : PDFProcessor) (c : Nav) : PDFProcessor :=
  match c with
  | Next => fst (next_page p)
  | Previous => fst (previous_page p)
  end.

Definition navigate (p : PDFProcessor) (cs : list Nav) : PDFProcessor :=
  fold_left nav cs p.

Definition in_range (p : PDFProcessor) : Prop :=
  (0 <= current_page p <= get_page_count p - 1)%Z.

End Pages.

Arguments pages {Image} _.
Arguments current_page {Image} _.
Arguments init {Image} _.
Arguments get_page_count {Image} _.
Arguments next_page {Image} _.
Arguments previous_page {Image} _.
Arguments handle_gesture {Image} _ _.
Arguments nav {Image} _ _.
Arguments navigate {Image} _ _.
Arguments in_range {Image} _.

End PDF.


(** ** Landmarks and per-frame inference results ([gesture_detector.py]) *)

(** A MediaPipe landmark: normalized coordinates, [y] growing downward. *)
Record Landmark : Set := mkLandmark { x : Q; y : Q }.

(** [hand_landmarks] and [face_landmarks]: an object whose [landmark]
    attribute is the ordered list of points (21 for a hand, 468 for a face
    mesh, so every index the detector uses is in range). *)
Record NormalizedLandmarkList : Set := mkLandmarks { landmark : list Landmark }.

(** [l.landmark[i]]. *)
Definition at_index (l : NormalizedLandmarkList) (i : nat) : Landmark :=
  nth i (landmark l) (mkLandmark 0 0).

(** What one call of [detect_gesture] reads from its environment: the clock
    and the two inference results.  [Hands] and [FaceMesh] are built with
    [max_num_hands=1] and [max_num_faces=1], so each result is absent
    ([None], falsy) or holds exactly one landmark list. *)
Record FrameInput : Set := mkFrame {
  current_time : Q;
  multi_hand_landmarks : option NormalizedLandmarkList;
  multi_face_landmarks : option NormalizedLandmarkList
}.

(** The [lip_region] dictionary built from the face mesh. *)
Record LipRegion : Set := mkLip { lip_x : Q; lip_y : Q; lip_radius : Q }.

(** ** The detector object *)

Record GestureDetector : Set := mkGD {
  previous_x : option Q;
  start_x : option Q;
  last_gesture_time : Q;
  gesture_started : bool;
  movement_frames : nat;
  finger_licked : bool;
  lick_time : Q;
  was_at_lips : bool;
  position_history : list Q;
  thumb_history : list Q
}.

(** Configuration attributes, assigned once in [__init__] and never written
    again. *)
Definition swipe_threshold_left : Q := 0.10.
Definition swipe_threshold_right : Q := 0.12.
Definition fast_swipe_threshold : Q := 0.20.
Definition gesture_cooldown : Q := 1.5.
Definition min_frames : nat := 3.
Definition max_frames : nat := 25.
Definition lick_timeout : Q := 5.0.
Definition history_size : nat := 15.

(** The mutable attributes after [__init__]. *)
Definition init_detector : GestureDetector :=
  {| previous_x := None;
     start_x := None;
     last_gesture_time := 0;
     gesture_started := false;
     movement_frames := 0;
     finger_licked := false;
     lick_time := 0;
     was_at_lips := false;
     position_history := [];
     thumb_history := [] |}.

(** Attribute assignments [self.f = v]. *)
Definition set_start_x (v : option Q) (s : GestureDetector) : GestureDetector :=
  mkGD (previous_x s) v (last_gesture_time s) (gesture_started s)
       (movement_frames s) (finger_licked s) (lick_time s) (was_at_lips s)
       (position_history s) (thumb_history s).

Definition set_last_gesture_time (v : Q) (s : GestureDetector) : GestureDetector :=
  mkGD (previous_x s) (start_x s) v (gesture_started s)
       (movement_frames s) (finger_licked s) (lick_time s) (was_at_lips s)
       (position_history s) (thumb_history s).

Definition set_gesture_started (v : bool) (s : GestureDetector) : GestureDetector :=
  mkGD (previous_x s) (start_x s) (last_gesture_time s) v
       (movement_frames s) (finger_licked s) (lick_time s) (was_at_lips s)
       (position_history s) (thumb_history s).

Definition set_movement_frames (v : nat) (s : GestureDetector) : GestureDetector :=
  mkGD (previous_x s) (start_x s) (last_gesture_time s) (gesture_started s)
       v (finger_licked s) (lick_time s) (was_at_lips s)
       (position_history s) (thumb_history s).

Definition set_finger_licked (v : bool) (s : GestureDetector) : GestureDetector :=
  mkGD (previous_x s) (start_x s) (last_gesture_time s) (gesture_started s)
       (movement_frames s) v (lick_time s) (was_at_lips s)
       (position_history s) (thumb_history s).

Definition set_lick_time (v : Q) (s : GestureDetector) : GestureDetector :=
  mkGD (previous_x s) (start_x s) (last_gesture_time s) (gesture_started s)
       (movement_frames s) (finger_licked s) v (was_at_lips s)
       (position_history s) (thumb_history s).

Definition set_was_at_lips (v : bool) (s : GestureDetector) : GestureDetector :=
  mkGD (previous_x s) (start_x s) (last_gesture_time s) (gesture_started s)
       (movement_frames s) (finger_licked s) (lick_time s) v
       (position_history s) (thumb_history s).

Definition set_position_history (v : list Q) (s : GestureDetector) : GestureDetector :=
  mkGD (previous_x s) (start_x s) (last_gesture_time s) (gesture_started s)
       (movement_frames s) (finger_licked s) (lick_time s) (was_at_lips s)
       v (thumb_history s).

Definition set_thumb_history (v : list Q) (s : GestureDetector) : GestureDetector :=
  mkGD (previous_x s) (start_x s) (last_gesture_time s) (gesture_started s)
       (movement_frames s) (finger_licked s) (lick_time s) (was_at_lips s)
       (position_history s) v.

(** [self.position_history.clear(); self.thumb_history.clear()]. *)
Definition clear_histories (s : GestureDetector) : GestureDetector :=
  set_thumb_history [] (set_position_history [] s).

(** ** The priming detector *)

(** [is_finger_lick_pose]: index extended, in the top half of the frame, and
    higher than the middle, ring and pinky fingertips. *)
Definition is_finger_lick_pose (hand_landmarks : NormalizedLandmarkList) : bool :=
  let index_tip := at_index hand_landmarks 8 in
  let index_pip := at_index hand_landmarks 6 in
  let middle_tip := at_index hand_landmarks 12 in
  let ring_tip := at_index hand_landmarks 16 in
  let pinky_tip := at_index hand_landmarks 20 in
  let index_extended := Qltb (y index_tip) (y index_pip - 0.05) in
  let index_near_top := Qltb (y index_tip) 0.5 in
  let index_most_extended :=
    Qltb (y index_tip) (y middle_tip - 0.05) &&
    Qltb (y index_tip) (y ring_tip - 0.05) &&
    Qltb (y index_tip) (y pinky_tip - 0.05) in
  index_extended && index_near_top && index_most_extended.

(** The lip zone of [detect_gesture]: centre between landmarks 13 (upper
    lip) and 14 (lower lip) of the face mesh, radius 0.08. *)
Definition lip_region_of (face : option NormalizedLandmarkList) : option LipRegion :=
  match face with
  | Some face_landmarks =>
      let upper_lip := at_index face_landmarks 13 in
      let lower_lip := at_index face_landmarks 14 in
      let lip_center_x := (x upper_lip + x lower_lip) / 2 in
      let lip_center_y := (y upper_lip + y lower_lip) / 2 in
      Some {| lip_x := lip_center_x; lip_y := lip_center_y; lip_radius := 0.08 |}
  | None => None
  end.

(** The squared distance [dx**2 + dy**2] from the index fingertip to the
    centre of the lip zone. *)
Definition lip_distance_sq (lip_region : LipRegion)
    (hand_landmarks : NormalizedLandmarkList) : Q :=
  let index_tip := at_index hand_landmarks 8 in
  let dx := x index_tip - lip_x lip_region in
  let dy := y index_tip - lip_y lip_region in
  dx * dx + dy * dy.

(** [finger_at_lips]: [np.sqrt(dx**2 + dy**2) < lip_region['radius']] when a
    lip zone exists. *)
Definition finger_at_lips (lip_region : option LipRegion)
    (hand_landmarks : NormalizedLandmarkList) : bool :=
  match lip_region with
  | Some r => sqrt_ltb (lip_distance_sq r hand_landmarks) (lip_radius r)
  | None => false
  end.

Definition currently_at_lips (lip_region : option LipRegion)
    (hand_landmarks : NormalizedLandmarkList) : bool :=
  is_finger_lick_pose hand_landmarks || finger_at_lips lip_region hand_landmarks.

(** ** The swipe classifier (the body of the [elif] at line 215) *)

(** One iteration of the vote-counting loop
    [for i in range(1, len(h)): diff = h[i] - h[i-1] ...]; the accumulator
    is the pair (rightward votes, leftward votes). *)
Definition count_step (h : list Q) (acc : nat * nat) (i : nat) : nat * nat :=
  let diff := nth i h 0 - nth (i - 1) h 0 in
  if Qltb 0.01 diff then (S (fst acc), snd acc)
  else if Qltb diff (-0.01) then (fst acc, S (snd acc))
  else acc.

Definition count_movements (h : list Q) : nat * nat :=
  fold_left (count_step h) (seq 1 (length h - 1)) (0%nat, 0%nat).

(** True division of two Python ints. *)
Definition int_div (a b : nat) : Q :=
  inject_Z (Z.of_nat a) / inject_Z (Z.of_nat b).

Definition classify_swipe (position_history thumb_history : list Q)
  : option Gesture :=
  let start_pos := nth 0 position_history 0 in
  let end_pos := last position_history 0 in
  let total_movement := end_pos - start_pos in
  let movements_right := fst (count_movements position_history) in
  let movements_left := snd (count_movements position_history) in
  let thumb_right := fst (count_movements thumb_history) in
  let thumb_left := snd (count_movements thumb_history) in
  let total_movements := (movements_right + movements_left)%nat in
  let total_thumb_movements := (thumb_right + thumb_left)%nat in
  if (0 <? total_movements)%nat && (0 <? total_thumb_movements)%nat then
    let right_ratio := int_div movements_right total_movements in
    let left_ratio := int_div movements_left total_movements in
    let thumb_right_ratio := int_div thumb_right total_thumb_movements in
    let thumb_left_ratio := int_div thumb_left total_thumb_movements in
    let thumb_finger_agreement_right :=
      Qltb 0.5 right_ratio && Qltb 0.5 thumb_right_ratio in
    let thumb_finger_agreement_left :=
      Qltb 0.45 left_ratio && Qltb 0.45 thumb_left_ratio in
    let is_fast_swipe := Qltb fast_swipe_threshold (Qabs total_movement) in
    let required_consistency_left := if is_fast_swipe then 0.45 else 0.55 in
    let required_consistency_right := if is_fast_swipe then 0.5 else 0.6 in
    if Qltb swipe_threshold_right total_movement &&
       Qltb required_consistency_right right_ratio &&
       thumb_finger_agreement_right
    then Some Right
    else if Qltb total_movement (- swipe_threshold_left) &&
            Qltb required_consistency_left left_ratio &&
            thumb_finger_agreement_left
    then Some Left
    else None
  else None.

(** The classifier in the words of the specification: the steps between
    consecutive samples, and the votes among them. *)
Fixpoint steps (h : list Q) : list Q :=
  match h with
  | a :: (b :: _) as t => (b - a) :: steps t
  | _ => []
  end.

Definition votes_right (h : list Q) : nat :=
  length (filter (fun d => Qltb 0.01 d) (steps h)).

Definition votes_left (h : list Q) : nat :=
  length (filter (fun d => Qltb d (-0.01)) (steps h)).

(** One vote added to the pair (rightward, leftward). *)
Definition vote (acc : nat * nat) (d : Q) : nat * nat :=
  if Qltb 0.01 d then (S (fst acc), snd acc)
  else if Qltb d (-0.01) then (fst acc, S (snd acc))
  else acc.

(** ** The per-frame step [detect_gesture]

    The step is written over the classifier it consults, so that "the
    classifier is consulted" can be stated as "the outcome depends on it";
    [detect_gesture] instantiates it with [classify_swipe]. *)

Section Step.

Variable classify : list Q -> list Q -> option Gesture.

(** Lines 97-100: expiry of a stale finger lick. *)
Definition expire_lick (now : Q) (s : GestureDetector) : GestureDetector :=
  if finger_licked s && Qltb lick_timeout (now - lick_time s)
  then set_finger_licked false s
  else s.

(** Lines 164-180: priming bookkeeping. *)
Definition update_lick (now : Q) (at_lips : bool) (s : GestureDetector)
  : GestureDetector :=
  if at_lips then
    let s := set_was_at_lips true s in
    if negb (finger_licked s)
    then set_last_gesture_time 0 (set_lick_time now (set_finger_licked true s))
    else s
  else if was_at_lips s && finger_licked s then set_was_at_lips false s
  else s.

(** Lines 191-196: append to both histories, then drop the oldest sample
    of each one that has grown past [history_size]. *)
Definition record_positions (current_x thumb_x : Q) (s : GestureDetector)
  : GestureDetector :=
  let s := set_position_history (position_history s ++ [current_x]) s in
  let s := set_thumb_history (thumb_history s ++ [thumb_x]) s in
  let s := if (history_size <? length (position_history s))%nat
           then set_position_history (tl (position_history s)) s else s in
  let s := if (history_size <? length (thumb_history s))%nat
           then set_thumb_history (tl (thumb_history s)) s else s in
  s.

(** Lines 280-284 and 293-297: the updates that accompany an emitted
    swipe, the same for both directions. *)
Definition emit_swipe (now : Q) (s : GestureDetector) : GestureDetector :=
  clear_histories
    (set_finger_licked false
       (set_gesture_started false (set_last_gesture_time now s))).

(** [self.gesture_started = False] followed by clearing both histories. *)
Definition reset_tracking (s : GestureDetector) : GestureDetector :=
  clear_histories (set_gesture_started false s).

(** Lines 206-301: cooldown check, then the guarded classification. *)
Definition evaluate_swipe (now : Q) (s : GestureDetector)
  : GestureDetector * option Gesture :=
  if Qleb (now - last_gesture_time s) gesture_cooldown then
    (reset_tracking s, None)
  else if (min_frames <=? movement_frames s)%nat &&
          (5 <=? length (position_history s))%nat &&
          (5 <=? length (thumb_history s))%nat then
    match classify (position_history s) (thumb_history s) with
    | Some g => (emit_swipe now s, Some g)
    | None => (s, None)
    end
  else (s, None).

(** Lines 303-307: a gesture that took more than [max_frames] frames. *)
Definition discard_slow (s : GestureDetector) : GestureDetector :=
  if (max_frames <? movement_frames s)%nat then reset_tracking s else s.

(** Lines 188-312: swipe tracking for one hand. *)
Definition track_swipe (now : Q) (at_lips : bool) (current_x thumb_x : Q)
    (s : GestureDetector) : GestureDetector * option Gesture :=
  if finger_licked s && negb at_lips then
    let s := record_positions current_x thumb_x s in
    if negb (gesture_started s) then
      (set_movement_frames 0
         (set_gesture_started true (set_start_x (Some current_x) s)),
       None)
    else
      let s := set_movement_frames (movement_frames s + 1) s in
      let (s, gesture) := evaluate_swipe now s in
      (discard_slow s, gesture)
  else (reset_tracking s, None).

(** Lines 135-328: the body of the loop over detected hands. *)
Definition process_hand (now : Q) (lip_region : option LipRegion)
    (hand_landmarks : NormalizedLandmarkList) (s : GestureDetector)
  : GestureDetector * option Gesture :=
  let at_lips := currently_at_lips lip_region hand_landmarks in
  let s := update_lick now at_lips s in
  let current_x := x (at_index hand_landmarks 12) in
  let thumb_x := x (at_index hand_landmarks 4) in
  track_swipe now at_lips current_x thumb_x s.

(** Lines 102-334: everything after the expiry check. *)
Definition process_frame (s : GestureDetector) (frame : FrameInput)
  : GestureDetector * option Gesture :=
  let now := current_time frame in
  let lip_region := lip_region_of (multi_face_landmarks frame) in
  match multi_hand_landmarks frame with
  | Some hand_landmarks => process_hand now lip_region hand_landmarks s
  | None => (set_start_x None (set_gesture_started false s), None)
  end.

Definition detect_gesture_with (s : GestureDetector) (frame : FrameInput)
  : GestureDetector * option Gesture :=
  process_frame (expire_lick (current_time frame) s) frame.

End Step.

(** [GestureDetector.detect_gesture]: the new object state and the returned
    gesture. *)
Definition detect_gesture (s : GestureDetector) (frame : FrameInput)
  : GestureDetector * option Gesture :=
  detect_gesture_with classify_swipe s frame.

(** [GestureDetector.reset]. *)
Definition reset (s : GestureDetector) : GestureDetector :=
  let s := set_start_x None s in
  let s := set_gesture_started false s in
  let s := set_movement_frames 0 s in
  let s := set_last_gesture_time 0 s in
  let s := clear_histories s in
  set_finger_licked false s.

(** ** Executions *)

(** A method call on the detector. *)
Inductive Call : Set :=
| Detect (frame : FrameInput)
| Reset.

Definition call (s : GestureDetector) (c : Call) : GestureDetector :=
  match c with
  | Detect frame => fst (detect_gesture s frame)
  | Reset => reset s
  end.

(** The detector after a sequence of calls. *)
Definition run (s : GestureDetector) (cs : list Call) : GestureDetector :=
  fold_left call cs s.

(** The gestures returned by [detect_gesture] over consecutive frames, with
    the final state. *)
Fixpoint feed (s : GestureDetector) (frames : list FrameInput)
  : GestureDetector * list (option Gesture) :=
  match frames with
  | [] => (s, [])
  | f :: rest =>
      let (s1, g) := detect_gesture s f in
      let (s2, gs) := feed s1 rest in
      (s2, g :: gs)
  end.

(** The priming pose is detected in this frame ([currently_at_lips]). *)
Definition priming_frame (frame : FrameInput) : bool :=
  match multi_hand_landmarks frame with
  | Some hand_landmarks =>
      currently_at_lips (lip_region_of (multi_face_landmarks frame)) hand_landmarks
  | None => false
  end.


(** ** Concrete inputs used by the examples *)

(** A 21-point hand with the index fingertip (8) at height [index_y], the
    middle fingertip (12) at abscissa [finger_x], the thumb tip (4) at
    abscissa [thumb_x], and every other point at (0.5, 0.6). *)
Definition hand_with (index_y finger_x thumb_x : Q) : NormalizedLandmarkList :=
  mkLandmarks
    (map (fun i =>
            if (i =? 8)%nat then mkLandmark 0.5 index_y
            else if (i =? 12)%nat then mkLandmark finger_x 0.6
            else if (i =? 4)%nat then mkLandmark thumb_x 0.6
            else mkLandmark 0.5 0.6)
         (seq 0 21)).

(** The finger-lick pose: index fingertip high above the other fingers. *)
Definition lick_hand : NormalizedLandmarkList := hand_with 0.2 0.5 0.5.

(** A flat hand (no priming pose) whose tracked points are both at [px]. *)
Definition flat_hand (px : Q) : NormalizedLandmarkList := hand_with 0.6 px px.

(** A frame at time [t] showing [hand] and no face. *)
Definition hand_frame (t : Q) (hand : NormalizedLandmarkList) : FrameInput :=
  mkFrame t (Some hand) None.

(** A frame at time [t] with neither hand nor face. *)
Definition empty_frame (t : Q) : FrameInput := mkFrame t None None.

(** A 468-point face mesh with both lip centres at ([cx], [cy]). *)
Definition face_with_lips (cx cy : Q) : NormalizedLandmarkList :=
  mkLandmarks (repeat (mkLandmark cx cy) 468).

(** A priming frame at [t0] followed by the rightward sweep
    0.30, 0.33, 0.36, 0.40, 0.45 of both tracked points, one frame every
    0.1 s. *)
Definition primed_right_sweep (t0 : Q) : list FrameInput :=
  [ hand_frame t0 lick_hand;
    hand_frame (t0 + 0.1) (flat_hand 0.30);
    hand_frame (t0 + 0.2) (flat_hand 0.33);
    hand_frame (t0 + 0.3) (flat_hand 0.36);
    hand_frame (t0 + 0.4) (flat_hand 0.40);
    hand_frame (t0 + 0.5) (flat_hand 0.45) ].

(** The detector after the priming frame and the first four samples of the
    sweep, and the frame that completes the sweep. *)
Definition armed_detector : GestureDetector :=
  fst (feed init_detector (firstn 5 (primed_right_sweep 1000))).

Definition closing_frame : FrameInput := hand_frame (1000 + 0.5) (flat_hand 0.45).

(** Two primed sweeps, the second starting 0.1 s after the first swipe. *)
Definition double_sweep : list FrameInput :=
  primed_right_sweep 1000 ++ primed_right_sweep 1000.6.

(** The detector right after a priming frame at 1000 s. *)
Definition primed_detector : GestureDetector :=
  fst (detect_gesture init_detector (hand_frame 1000 lick_hand)).



(** The finger history of the specification's example, also used for the
    thumb. *)
Definition example_sweep : list Q := [0.30; 0.33; 0.36; 0.40; 0.45].

(** A primed detector carries no cooldown stamp. *)
Definition primed_without_cooldown (s : GestureDetector) : Prop :=
  finger_licked s = true -> last_gesture_time s = 0.

(** The two histories have the same length. *)
Definition same_length (s : GestureDetector) : Prop :=
  length (position_history s) = length (thumb_history s).

(** Neither history holds more than [history_size] samples. *)
Definition within_capacity (s : GestureDetector) : Prop :=
  (length (position_history s) <= history_size)%nat /\
  (length (thumb_history s) <= history_size)%nat.

(** The detector as it stands when the [elif] of line 215 is reached in a
    frame showing [hand_landmarks]: after the expiry check, the priming
    bookkeeping, the two appends and the increment of the frame counter. *)
Definition tracking_state (s : GestureDetector) (frame : FrameInput)
    (hand_landmarks : NormalizedLandmarkList) : GestureDetector :=
  let now := current_time frame in
  let s := expire_lick now s in
  let lip_region := lip_region_of (multi_face_landmarks frame) in
  let s := update_lick now (currently_at_lips lip_region hand_landmarks) s in
  let s := record_positions (x (at_index hand_landmarks 12))
                            (x (at_index hand_landmarks 4)) s in
  set_movement_frames (movement_frames s + 1) s.

(** ** The rest of [pdf_reader.py], and the viewer's use of it
       ([book_viewer.py]) *)

(** Python's [l[i]] on a list: a negative index counts from the end, and
    an index outside [-len, len) raises [IndexError] (here [None]). *)
Definition py_index {A : Type} (l : list A) (i : Z) : option A :=
  let n := Z.of_nat (length l) in
  if ((0 <=? i) && (i <? n))%Z then nth_error l (Z.to_nat i)
  else if ((- n <=? i) && (i <? 0))%Z then nth_error l (Z.to_nat (n + i))
  else None.

(** [PDFProcessor.get_current_page]: the page image, or Python's [None]. *)
Definition get_current_page {Image : Type} (p : PDF.PDFProcessor Image)
  : option Image :=
  if ((0 <=? PDF.current_page p) &&
      (PDF.current_page p <? Z.of_nat (length (PDF.pages p))))%Z
  then py_index (PDF.pages p) (PDF.current_page p)
  else None.

(** What [BookViewer.render_book] decides to show (lines 161-183): the two
    page images and the two printed page numbers, each possibly [None]. *)
Record Spread (Image : Type) : Type := mkSpread {
  left_page : option Image;
  left_page_num : option Z;
  right_page : option Image;
  right_page_num : option Z
}.

Arguments mkSpread {Image} _ _ _ _.
Arguments left_page {Image} _.
Arguments left_page_num {Image} _.
Arguments right_page {Image} _.
Arguments right_page_num {Image} _.

(** The page selection of [render_book]. The outer [option] is [None] when
    one of the list accesses raises [IndexError]. *)
Definition select_spread {Image : Type} (p : PDF.PDFProcessor Image)
  : option (Spread Image) :=
  let current_page := PDF.current_page p in
  let total_pages := PDF.get_page_count p in
  if (current_page mod 2 =? 0)%Z then
    match (if (0 <? current_page)%Z
           then option_map (fun img => (Some img, Some current_page))
                  (py_index (PDF.pages p) (current_page - 1))
           else Some (None, None)) with
    | None => None
    | Some (lp, ln) =>
        match (if (current_page <? total_pages)%Z
               then option_map (fun img => (Some img, Some (current_page + 1)%Z))
                      (py_index (PDF.pages p) current_page)
               else Some (None, None)) with
        | None => None
        | Some (rp, rn) => Some (mkSpread lp ln rp rn)
        end
    end
  else
    match py_index (PDF.pages p) current_page with
    | None => None
    | Some img =>
        match (if (current_page + 1 <? total_pages)%Z
               then option_map (fun img' => (Some img', Some (current_page + 2)%Z))
                      (py_index (PDF.pages p) (current_page + 1))
               else Some (None, None)) with
        | None => None
        | Some (rp, rn) =>
            Some (mkSpread (Some img) (Some (current_page + 1)%Z) rp rn)
        end
    end.

(** The processor reached from a fresh one by [k] calls of [next_page]. *)
Definition after_nexts {Image : Type} (ps : list Image) (k : nat)
  : PDF.PDFProcessor Image :=
  PDF.navigate (PDF.init ps) (repeat PDF.Next k).

(** ** Window events ([BookViewer.handle_events]) *)

Inductive Key : Set := K_ESCAPE | K_SPACE | K_other.

(** A pygame event, as far as [handle_events] looks at it. *)
Inductive Event : Set :=
| QUIT
| KEYDOWN (key : Key)
| OtherEvent.

(** The three return values: [False], ['toggle_webcam'], [True]. *)
Inductive EventResult : Set := RFalse | Rtoggle_webcam | RTrue.

Fixpoint handle_events (events : list Event) : EventResult :=
  match events with
  | [] => RTrue
  | QUIT :: _ => RFalse
  | KEYDOWN K_ESCAPE :: _ => RFalse
  | KEYDOWN K_SPACE :: _ => Rtoggle_webcam
  | _ :: rest => handle_events rest
  end.

(** An event that makes [handle_events] return at once. *)
Definition decisive (e : Event) : bool :=
  match e with
  | QUIT | KEYDOWN K_ESCAPE | KEYDOWN K_SPACE => true
  | _ => false
  end.

(** ** The text fallback of [pdf_reader.py] ([create_text_image])

    The image is modelled by the [draw.text] calls made on it, in order:
    abscissa, ordinate and text of each. Characters are those of
    [String.string]. *)

Module TextImage.

Import String Ascii.

(** [text.split('\n')]. *)
Fixpoint split_lines (text : string) : list string :=
  match text with
  | EmptyString => [EmptyString]
  | String c rest =>
      if Ascii.eqb c "010"%char then EmptyString :: split_lines rest
      else match split_lines rest with
           | line :: lines => String c line :: lines
           | [] => [String c EmptyString]
           end
  end.

(** The loop [for line in lines[:50]] from ordinate [y_position] on: stop
    once [y_position > 950], else draw [line[:80]] and move down by 20. *)
Fixpoint draw_lines (lines : list string) (y_position : Z)
  : list (Z * Z * string) :=
  match lines with
  | [] => []
  | line :: rest =>
      if (950 <? y_position)%Z then []
      else (10%Z, y_position, substring 0 80 line)
             :: draw_lines rest (y_position + 20)%Z
  end.

(** [str(page_num)]. *)
Definition str (n : Z) : string :=
  DecimalString.NilZero.string_of_int (Z.to_int n).

(** The f-string [f"Page {page_num}"]. *)
Definition page_header (page_num : Z) : string :=
  ("Page " ++ str page_num)%string.

Definition create_text_image (text : string) (page_num : Z)
  : list (Z * Z * string) :=
  (10%Z, 10%Z, page_header page_num)
    :: draw_lines (firstn 50 (split_lines text)) 50%Z.

End TextImage.

(** ** The main loop ([PDFBookReader.run]) *)

Module Main.

(** What one iteration reads: whether the camera delivered a frame, what the
    detector's inference found in it, and the window events pending. *)
Record Tick : Set := mkTick {
  ret : bool;
  tick_frame : FrameInput;
  tick_events : list Event
}.

Record PDFBookReader (Image : Type) : Type := mkApp {
  pdf_processor : PDF.PDFProcessor Image;
  gesture_detector : GestureDetector;
  running : bool;
  show_webcam : bool
}.

Arguments mkApp {Image} _ _ _ _.
Arguments pdf_processor {Image} _.
Arguments gesture_detector {Image} _.
Arguments running {Image} _.
Arguments show_webcam {Image} _.

(** [__init__], given the loaded pages. *)
Definition new_app {Image : Type} (ps : list Image) : PDFBookReader Image :=
  mkApp (PDF.init ps) init_detector true true.

(** The body of the [while] loop after a successful camera read: gesture
    detection and dispatch, then the window events. *)
Definition iteration {Image : Type} (app : PDFBookReader Image) (t : Tick)
  : PDFBookReader Image :=
  let (detector, gesture) := detect_gesture (gesture_detector app) (tick_frame t) in
  let pdf := PDF.handle_gesture gesture (pdf_processor app) in
  match handle_events (tick_events t) with
  | RFalse => mkApp pdf detector false (show_webcam app)
  | Rtoggle_webcam => mkApp pdf detector (running app) (negb (show_webcam app))
  | RTrue => mkApp pdf detector (running app) (show_webcam app)
  end.

(** The loop over the ticks that arrive: it ends when [running] is cleared
    or the camera fails ([break]). The result is the final application state
    and, for every iteration carried out, the page selection that
    [render_book] made at its end. *)
Fixpoint run {Image : Type} (app : PDFBookReader Image) (ticks : list Tick)
  : PDFBookReader Image * list (option (Spread Image)) :=
  match ticks with
  | [] => (app, [])
  | t :: rest =>
      if running app then
        if ret t then
          let app' := iteration app t in
          let (final, shown) := run app' rest in
          (final, select_spread (pdf_processor app') :: shown)
        else (app, [])
      else (app, [])
  end.

(** The page index after each iteration carried out. *)
Fixpoint page_trace {Image : Type} (app : PDFBookReader Image)
    (ticks : list Tick) : list Z :=
  match ticks with
  | [] => []
  | t :: rest =>
      if running app && ret t then
        PDF.current_page (pdf_processor (iteration app t))
          :: page_trace (iteration app t) rest
      else []
  end.

(** Number of changes of value along a list that starts after [c]. *)
Fixpoint count_changes (c : Z) (l : list Z) : nat :=
  match l with
  | [] => 0
  | d :: rest => (if (c =? d)%Z then 0 else 1) + count_changes d rest
  end.

End Main.

(** ** Counting along a run of frames *)

(** Number of frames in which the priming pose is detected. *)
Definition count_priming (frames : list FrameInput) : nat :=
  length (filter priming_frame frames).

(** Number of swipes among returned gestures. *)
Definition count_swipes (gs : list (option Gesture)) : nat :=
  length (filter (fun g => match g with Some _ => true | None => false end) gs).

(** The frame shows no hand, or a hand whose tracked finger is at [v]. *)
Definition finger_rests_at (v : Q) (frame : FrameInput) : Prop :=
  match multi_hand_landmarks frame with
  | Some hand_landmarks => x (at_index hand_landmarks 12) = v
  | None => True
  end.

(** The part of the detector that decides its future answers: everything
    but [previous_x] and [was_at_lips], and the priming timestamp only
    while primed. *)
Definition same_behaviour (a b : GestureDetector) : Prop :=
  start_x a = start_x b /\
  last_gesture_time a = last_gesture_time b /\
  gesture_started a = gesture_started b /\
  movement_frames a = movement_frames b /\
  finger_licked a = finger_licked b /\
  (finger_licked a = true -> lick_time a = lick_time b) /\
  position_history a = position_history b /\
  thumb_history a = thumb_history b.

(** * Properties *)

(** ** Boolean comparisons *)

Lemma Qleb_le (a b : Q) : Qleb a b = true <-> a <= b.
Proof. apply Qle_bool_iff. Qed.

Lemma Qltb_lt (a b : Q) : Qltb a b = true <-> a < b.
Proof.
  unfold Qltb. rewrite negb_true_iff. split.
  - intros H. apply Qnot_le_lt. intros Hle.
    apply Qle_bool_iff in Hle. congruence.
  - intros H. destruct (Qle_bool b a) eqn:E; [|reflexivity].
    apply Qle_bool_iff in E. exfalso. exact (Qlt_not_le _ _ H E).
Qed.

Lemma Qltb_nlt (a b : Q) : Qltb a b = false <-> ~ a < b.
Proof.
  rewrite <- Qltb_lt. destruct (Qltb a b); split; congruence.
Qed.

Lemma Qleb_nle (a b : Q) : Qleb a b = false <-> ~ a <= b.
Proof.
  rewrite <- Qleb_le. destruct (Qleb a b); split; congruence.
Qed.

(** ** Page navigation *)

Section PageFacts.

Context {Image : Type}.
Implicit Types (p : PDF.PDFProcessor Image) (c : PDF.Nav).

Lemma pages_nav p c : PDF.pages (PDF.nav p c) = PDF.pages p.
Proof.
  destruct c; unfold PDF.nav, PDF.next_page, PDF.previous_page;
    match goal with |- context [if ?b then _ else _] => destruct b end;
    reflexivity.
Qed.

Lemma in_range_nav p c : PDF.in_range p -> PDF.in_range (PDF.nav p c).
Proof.
  unfold PDF.in_range, PDF.nav, PDF.next_page, PDF.previous_page,
    PDF.get_page_count.
  intros H. destruct c.
  - destruct (Z.ltb_spec (PDF.current_page p)
                (Z.of_nat (length (PDF.pages p)) - 1)); simpl; lia.
  - destruct (Z.ltb_spec 0 (PDF.current_page p)); simpl; lia.
Qed.

Lemma navigate_invariant (cs : list PDF.Nav) :
  forall p, PDF.in_range p ->
    PDF.in_range (PDF.navigate p cs) /\
    PDF.pages (PDF.navigate p cs) = PDF.pages p.
Proof.
  induction cs as [|c cs IH]; intros p H; simpl.
  - split; [exact H | reflexivity].
  - destruct (IH (PDF.nav p c) (in_range_nav p c H)) as [Hr Hp].
    split; [exact Hr|]. fold (PDF.navigate (PDF.nav p c) cs).
    rewrite Hp. apply pages_nav.
Qed.

Lemma init_in_range (ps : list Image) : ps <> [] -> PDF.in_range (PDF.init ps).
Proof.
  intros H. unfold PDF.in_range, PDF.get_page_count. simpl.
  destruct ps as [|a ps]; [congruence|]. simpl length. lia.
Qed.

(** C10. For a PDF with at least one page, after any sequence of
    [next_page] and [previous_page] calls from [current_page = 0] the
    page index [p] lies in [0, page_count - 1]; in that state [next_page]
    returns [True] exactly when [current_page < page_count - 1], then
    moving to [min (current_page + 2) (page_count - 1)], and otherwise
    leaves the object as it is; [previous_page] returns [True] exactly
    when [current_page > 0], then moving to [max (current_page - 2) 0],
    and otherwise leaves the object as it is; the main loop answers
    ['left'] with [next_page] and ['right'] with [previous_page]. *)
Theorem page_navigation (ps : list Image) (cs : list PDF.Nav) :
  ps <> [] ->
  let p := PDF.navigate (PDF.init ps) cs in
  let n := PDF.get_page_count p in
  (0 <= PDF.current_page p <= n - 1)%Z /\
  PDF.pages p = ps /\
  (snd (PDF.next_page p) = true <-> (PDF.current_page p < n - 1)%Z) /\
  (snd (PDF.next_page p) = true ->
     PDF.next_page p =
     (PDF.mkPDF Image ps (Z.min (PDF.current_page p + 2) (n - 1)), true)) /\
  (snd (PDF.next_page p) = false -> PDF.next_page p = (p, false)) /\
  (snd (PDF.previous_page p) = true <-> (0 < PDF.current_page p)%Z) /\
  (snd (PDF.previous_page p) = true ->
     PDF.previous_page p =
     (PDF.mkPDF Image ps (Z.max (PDF.current_page p - 2) 0), true)) /\
  (snd (PDF.previous_page p) = false -> PDF.previous_page p = (p, false)) /\
  PDF.handle_gesture (Some Left) p = fst (PDF.next_page p) /\
  PDF.handle_gesture (Some Right) p = fst (PDF.previous_page p) /\
  PDF.handle_gesture None p = p.
Proof.
  intros Hne p n.
  destruct (navigate_invariant cs (PDF.init ps) (init_in_range ps Hne))
    as [Hr Hp].
  fold p in Hr, Hp. simpl in Hp.
  split; [exact Hr|]. split; [exact Hp|].
assert (Hlast : PDF.handle_gesture (Some Left) p = fst (PDF.next_page p) /\
                PDF.handle_gesture (Some Right) p = fst (PDF.previous_page p) /\
                PDF.handle_gesture None p = p)
  by (repeat split; reflexivity).
revert Hlast. generalize (PDF.handle_gesture (Some Left) p),
  (PDF.handle_gesture (Some Right) p), (PDF.handle_gesture None p).
intros hl hr hn Hlast.
unfold PDF.next_page, PDF.previous_page in *. fold n in Hlast |- *.
destruct (Z.ltb_spec (PDF.current_page p) (n - 1)) as [Hn|Hn];
  destruct (Z.ltb_spec 0 (PDF.current_page p)) as [Hq|Hq]; simpl in *;
  try rewrite !Hp in Hlast; rewrite ?Hp;
  repeat split; intros; try reflexivity; try assumption;
  try discriminate; try lia; try apply Hlast.
Qed.

End PageFacts.

(** A three-page walk: forward twice, back once. *)
Lemma page_navigation_witness :
  (0 <= PDF.current_page
          (PDF.navigate (PDF.init [tt; tt; tt])
             [PDF.Next; PDF.Next; PDF.Previous]) <= 3 - 1)%Z.
Proof.
  apply (page_navigation [tt; tt; tt] [PDF.Next; PDF.Next; PDF.Previous]).
  discriminate.
Defined.

(** ** The detector: unfolding the step *)

Ltac unfold_step :=
  unfold detect_gesture, detect_gesture_with, process_frame, process_hand,
    track_swipe, evaluate_swipe, discard_slow, emit_swipe, reset_tracking,
    update_lick, expire_lick in *.

Ltac break_if :=
  match goal with
  | |- context [if ?b then _ else _] => destruct b eqn:?
  | |- context [match ?c with Some _ => _ | None => _ end] => destruct c eqn:?
  end.

(** Reduce projections of the detector record applied to attribute
    assignments (and pairs), nothing else. *)
Ltac proj_simpl :=
  cbn [previous_x start_x last_gesture_time gesture_started movement_frames
       finger_licked lick_time was_at_lips position_history thumb_history
       set_start_x set_last_gesture_time set_gesture_started
       set_movement_frames set_finger_licked set_lick_time set_was_at_lips
       set_position_history set_thumb_history clear_histories
       fst snd negb andb orb] in *.

Ltac nat_tests :=
  repeat match goal with
         | H : (_ <? _)%nat = true |- _ => apply Nat.ltb_lt in H
         | H : (_ <? _)%nat = false |- _ => apply Nat.ltb_ge in H
         | H : (_ <=? _)%nat = true |- _ => apply Nat.leb_le in H
         | H : (_ <=? _)%nat = false |- _ => apply Nat.leb_gt in H
         end.

Lemma length_tl {A : Type} (l : list A) : length (tl l) = (length l - 1)%nat.
Proof. destruct l; simpl; lia. Qed.

(** ** History invariants (C8, C9) *)

Lemma same_length_record (cx tx : Q) (s : GestureDetector) :
  same_length s -> same_length (record_positions cx tx s).
Proof.
  unfold same_length. intros He.
  unfold record_positions. unfold history_size in *. proj_simpl.
  repeat (break_if; proj_simpl); nat_tests;
    rewrite ?length_tl, ?length_app in *; simpl length in *; lia.
Qed.

Lemma within_capacity_record (cx tx : Q) (s : GestureDetector) :
  within_capacity s -> within_capacity (record_positions cx tx s).
Proof.
  unfold within_capacity. intros [H1 H2].
  unfold record_positions. unfold history_size in *. proj_simpl.
  repeat (break_if; proj_simpl); nat_tests;
    rewrite ?length_tl, ?length_app in *; simpl length in *; lia.
Qed.

(** Any property of the pair of histories that holds of two empty lists
    and survives [record_positions] is an invariant of the detector. *)
Section HistoryInvariant.

Variable classify : list Q -> list Q -> option Gesture.
Variable P : list Q -> list Q -> Prop.

Let inv (s : GestureDetector) : Prop :=
  P (position_history s) (thumb_history s).

Hypothesis P_empty : P [] [].
Hypothesis P_record :
  forall cx tx s, inv s -> inv (record_positions cx tx s).

Lemma expire_lick_histories (now : Q) (s : GestureDetector) :
  position_history (expire_lick now s) = position_history s /\
  thumb_history (expire_lick now s) = thumb_history s.
Proof. unfold expire_lick. break_if; split; reflexivity. Qed.

Lemma update_lick_histories (now : Q) (b : bool) (s : GestureDetector) :
  position_history (update_lick now b s) = position_history s /\
  thumb_history (update_lick now b s) = thumb_history s.
Proof.
  unfold update_lick. proj_simpl.
  repeat (break_if; proj_simpl); split; reflexivity.
Qed.

Lemma inv_ext (s s' : GestureDetector) :
  position_history s' = position_history s ->
  thumb_history s' = thumb_history s ->
  inv s -> inv s'.
Proof. unfold inv. intros -> ->. trivial. Qed.

Lemma inv_empty (s : GestureDetector) :
  position_history s = [] -> thumb_history s = [] -> inv s.
Proof. unfold inv. intros -> ->. exact P_empty. Qed.

Lemma inv_track (now : Q) (b : bool) (cx tx : Q) (s : GestureDetector) :
  inv s -> inv (fst (track_swipe classify now b cx tx s)).
Proof.
  intros H. apply (P_record cx tx) in H.
  unfold track_swipe. revert H.
  generalize (record_positions cx tx s). intros r Hr.
  unfold evaluate_swipe, discard_slow, emit_swipe, reset_tracking.
  proj_simpl.
  repeat (break_if; proj_simpl);
    solve [ apply inv_empty; reflexivity
          | eapply inv_ext; [| | exact Hr]; reflexivity ].
Qed.

Lemma inv_step (s : GestureDetector) (frame : FrameInput) :
  inv s -> inv (fst (detect_gesture_with classify s frame)).
Proof.
  intros H. unfold detect_gesture_with, process_frame, process_hand.
  destruct (expire_lick_histories (current_time frame) s) as [E1 E2].
  assert (H1 : inv (expire_lick (current_time frame) s))
    by (eapply inv_ext; eauto).
  revert H1. generalize (expire_lick (current_time frame) s). intros s1 H1.
  destruct (multi_hand_landmarks frame) as [hand|].
  - apply inv_track.
    destruct (update_lick_histories (current_time frame)
                (currently_at_lips (lip_region_of (multi_face_landmarks frame)) hand)
                s1) as [U1 U2].
    eapply inv_ext; eauto.
  - simpl. eapply inv_ext; [| | exact H1]; reflexivity.
Qed.

Lemma inv_reset (s : GestureDetector) : inv (reset s).
Proof. apply inv_empty; reflexivity. Qed.

End HistoryInvariant.

Lemma same_length_call (s : GestureDetector) (c : Call) :
  same_length s -> same_length (call s c).
Proof.
  destruct c; simpl.
  - apply (inv_step classify_swipe (fun a b => length a = length b));
      [reflexivity | exact same_length_record].
  - intros _.
    apply (inv_reset (fun a b => length a = length b)). reflexivity.
Qed.

Lemma within_capacity_step (classify : list Q -> list Q -> option Gesture)
    (s : GestureDetector) (frame : FrameInput) :
  within_capacity s ->
  within_capacity (fst (detect_gesture_with classify s frame)).
Proof.
  apply (inv_step classify
           (fun a b => (length a <= history_size)%nat /\
                       (length b <= history_size)%nat)).
  - unfold history_size. simpl. lia.
  - exact within_capacity_record.
Qed.

Lemma within_capacity_call (s : GestureDetector) (c : Call) :
  within_capacity s -> within_capacity (call s c).
Proof.
  destruct c; simpl.
  - apply within_capacity_step.
  - intros _.
    apply (inv_reset (fun a b => (length a <= history_size)%nat /\
                                 (length b <= history_size)%nat)).
    unfold history_size. simpl. lia.
Qed.

Lemma run_invariant (I : GestureDetector -> Prop) :
  (forall s c, I s -> I (call s c)) ->
  forall cs s, I s -> I (run s cs).
Proof.
  intros Hstep cs. induction cs as [|c cs IH]; intros s H; simpl.
  - exact H.
  - apply IH, Hstep, H.
Qed.

(** C9. After every call of [detect_gesture] and of [reset], from the
    state built by [__init__], the finger history and the thumb history
    have the same length; and no call breaks the equality, from whatever
    state with equally long histories it starts. *)
Theorem histories_equal_length :
  (forall cs : list Call,
      length (position_history (run init_detector cs)) =
      length (thumb_history (run init_detector cs))) /\
  (forall (s : GestureDetector) (c : Call),
      same_length s -> same_length (call s c)).
Proof.
  split.
  - intros cs. apply (run_invariant same_length same_length_call).
    reflexivity.
  - exact same_length_call.
Qed.


(** The outcome of a step depends on the classifier only through its value
    at the histories of [tracking_state], and only when the guard of
    line 215 holds there. *)
Lemma classifier_guard (c1 c2 : list Q -> list Q -> option Gesture)
    (s : GestureDetector) (frame : FrameInput) :
  detect_gesture_with c1 s frame <> detect_gesture_with c2 s frame ->
  exists hand_landmarks,
    multi_hand_landmarks frame = Some hand_landmarks /\
    let t := tracking_state s frame hand_landmarks in
    (min_frames <= movement_frames t)%nat /\
    (5 <= length (position_history t))%nat /\
    (5 <= length (thumb_history t))%nat /\
    c1 (position_history t) (thumb_history t) <>
    c2 (position_history t) (thumb_history t).
Proof.
  intros H. unfold detect_gesture_with, process_frame in H.
  destruct (multi_hand_landmarks frame) as [hand|];
    [|exfalso; apply H; reflexivity].
  exists hand. split; [reflexivity|].
  unfold tracking_state. unfold process_hand, track_swipe in H.
  set (u := update_lick _ _ _) in *.
  destruct (finger_licked u && negb _); [|exfalso; apply H; reflexivity].
  set (r := record_positions _ _ u) in *.
  destruct (negb (gesture_started r)); [exfalso; apply H; reflexivity|].
  set (t := set_movement_frames (movement_frames r + 1) r) in *.
  unfold evaluate_swipe in H.
  destruct (Qleb _ gesture_cooldown); [exfalso; apply H; reflexivity|].
  destruct (Nat.leb_spec min_frames (movement_frames t)) as [G1|G1];
    [|exfalso; apply H; reflexivity].
  destruct (Nat.leb_spec 5 (length (position_history t))) as [G2|G2];
    [|exfalso; apply H; reflexivity].
  destruct (Nat.leb_spec 5 (length (thumb_history t))) as [G3|G3];
    [|exfalso; apply H; reflexivity].
  cbv zeta. repeat split; try assumption.
  intros E. apply H. cbn [andb]. rewrite E. reflexivity.
Qed.

(** C8. After every call, from the state built by [__init__], neither
    history holds more than 15 samples, and a step never takes a history
    within capacity beyond it; and the classifier is consulted only in a
    step that shows a hand and in which, when line 215 is reached, the frame
    counter is at least [min_frames] and both histories hold at least 5
    samples: in every other step the outcome is the same whatever the
    classifier would answer. *)
Theorem capacity_and_classifier_guard :
  (forall cs : list Call,
      (length (position_history (run init_detector cs)) <= 15)%nat /\
      (length (thumb_history (run init_detector cs)) <= 15)%nat) /\
  (forall (s : GestureDetector) (frame : FrameInput),
      within_capacity s -> within_capacity (fst (detect_gesture s frame))) /\
  (forall (c1 c2 : list Q -> list Q -> option Gesture)
          (s : GestureDetector) (frame : FrameInput),
      detect_gesture_with c1 s frame <> detect_gesture_with c2 s frame ->
      exists hand_landmarks,
        multi_hand_landmarks frame = Some hand_landmarks /\
        let t := tracking_state s frame hand_landmarks in
        (3 <= movement_frames t)%nat /\
        (5 <= length (position_history t))%nat /\
        (5 <= length (thumb_history t))%nat /\
        c1 (position_history t) (thumb_history t) <>
        c2 (position_history t) (thumb_history t)).
Proof.
  split; [|split].
  - intros cs.
    apply (run_invariant within_capacity within_capacity_call).
    unfold within_capacity, history_size. simpl. lia.
  - intros s frame. apply within_capacity_step.
  - exact classifier_guard.
Qed.

(** ** Emission of a swipe (C6) *)

Lemma track_swipe_emits (classify : list Q -> list Q -> option Gesture)
    (now : Q) (b : bool) (cx tx : Q) (u s' : GestureDetector) (g : Gesture) :
  track_swipe classify now b cx tx u = (s', Some g) ->
  last_gesture_time s' = now /\
  gesture_started s' = false /\
  finger_licked s' = false /\
  position_history s' = [] /\
  thumb_history s' = [].
Proof.
  unfold track_swipe.
  destruct (finger_licked u && negb b); [|discriminate].
  generalize (record_positions cx tx u). intros r.
  destruct (negb (gesture_started r)); [discriminate|].
  generalize (set_movement_frames (movement_frames r + 1) r). intros t.
  unfold evaluate_swipe.
  destruct (Qleb (now - last_gesture_time t) gesture_cooldown);
    [discriminate|].
  destruct (_ && _ && _); [|discriminate].
  destruct (classify (position_history t) (thumb_history t));
    [|discriminate].
  intros E. injection E as <- _.
  unfold discard_slow, reset_tracking, emit_swipe. proj_simpl.
  break_if; proj_simpl; repeat split; reflexivity.
Qed.

Lemma detect_emits (classify : list Q -> list Q -> option Gesture)
    (s s' : GestureDetector) (frame : FrameInput) (g : Gesture) :
  detect_gesture_with classify s frame = (s', Some g) ->
  last_gesture_time s' = current_time frame /\
  gesture_started s' = false /\
  finger_licked s' = false /\
  position_history s' = [] /\
  thumb_history s' = [].
Proof.
  unfold detect_gesture_with, process_frame.
  destruct (multi_hand_landmarks frame) as [hand|]; [|discriminate].
  unfold process_hand. apply track_swipe_emits.
Qed.

(** C6. A step that returns ['left'] or ['right'] has set
    [last_gesture_time] to the current time, [gesture_started] and
    [finger_licked] to [False], and has emptied both histories. *)
Theorem swipe_emission_resets (s s' : GestureDetector) (frame : FrameInput)
    (g : Gesture) :
  detect_gesture s frame = (s', Some g) ->
  last_gesture_time s' = current_time frame /\
  gesture_started s' = false /\
  finger_licked s' = false /\
  position_history s' = [] /\
  thumb_history s' = [].
Proof. apply detect_emits. Qed.

(** ** No swipe without priming (C1) *)

Lemma unprimed_step_silent (classify : list Q -> list Q -> option Gesture)
    (s : GestureDetector) (frame : FrameInput) :
  finger_licked s = false ->
  priming_frame frame = false ->
  snd (detect_gesture_with classify s frame) = None /\
  finger_licked (fst (detect_gesture_with classify s frame)) = false.
Proof.
  intros Hl Hp.
  unfold detect_gesture_with, process_frame, priming_frame in *.
  unfold expire_lick. rewrite Hl. cbn [andb].
  destruct (multi_hand_landmarks frame) as [hand|].
  - unfold process_hand. rewrite Hp.
    unfold update_lick, track_swipe. rewrite Hl.
    rewrite andb_false_r, Hl. cbn [andb fst snd]. split; [reflexivity|].
    unfold reset_tracking. proj_simpl. exact Hl.
  - split; [reflexivity|]. proj_simpl. exact Hl.
Qed.

Lemma unprimed_feed_silent (frames : list FrameInput) :
  forall s : GestureDetector,
    finger_licked s = false ->
    Forall (fun f => priming_frame f = false) frames ->
    Forall (fun g => g = None) (snd (feed s frames)) /\
    finger_licked (fst (feed s frames)) = false.
Proof.
  induction frames as [|f frames IH]; intros s Hl Hp; simpl.
  - split; [constructor | exact Hl].
  - inversion Hp as [|? ? Hf Hrest]; subst.
    destruct (unprimed_step_silent classify_swipe s f Hl Hf) as [Hg Hl'].
    fold (detect_gesture s f) in Hg, Hl'.
    destruct (detect_gesture s f) as [s1 g]. simpl in Hg, Hl'.
    destruct (IH s1 Hl' Hrest) as [Hgs Hfin].
    destruct (feed s1 frames) as [s2 gs]. simpl in *.
    split; [constructor; assumption | exact Hfin].
Qed.

(** C1, as the code has it. After a step has emitted a swipe, no later step
    emits one - within [gesture_cooldown] of it or after - as long as the
    priming pose is detected in none of the frames in between and in the
    frame of that step. *)
Theorem no_swipe_until_primed_again (s s' : GestureDetector)
    (frame : FrameInput) (g : Gesture) (frames : list FrameInput) :
  detect_gesture s frame = (s', Some g) ->
  Forall (fun f => priming_frame f = false) frames ->
  Forall (fun out => out = None) (snd (feed s' frames)).
Proof.
  intros He Hp.
  destruct (detect_emits classify_swipe s s' frame g He) as (_ & _ & Hl & _).
  apply (unprimed_feed_silent frames s' Hl Hp).
Qed.

(** The step that completes the primed sweep emits [Right] and disarms. *)
Lemma swipe_emission_resets_witness :
  detect_gesture armed_detector closing_frame =
    (fst (detect_gesture armed_detector closing_frame), Some Right) /\
  finger_licked (fst (detect_gesture armed_detector closing_frame)) = false.
Proof.
  assert (E : detect_gesture armed_detector closing_frame =
              (fst (detect_gesture armed_detector closing_frame), Some Right))
    by (vm_compute; reflexivity).
  split; [exact E|].
  apply (swipe_emission_resets armed_detector _ closing_frame Right E).
Defined.

(** In every state the detector reaches, priming and a cooldown stamp
    exclude each other: the flag is set only together with
    [last_gesture_time = 0], and a swipe, which sets the stamp, clears the
    flag. The cooldown test of a tracking step therefore reads
    [current_time - 0 <= gesture_cooldown]. *)
Lemma primed_without_cooldown_step
    (classify : list Q -> list Q -> option Gesture)
    (s : GestureDetector) (frame : FrameInput) :
  primed_without_cooldown s ->
  primed_without_cooldown (fst (detect_gesture_with classify s frame)).
Proof.
  unfold primed_without_cooldown. intros H.
  unfold detect_gesture_with, process_frame.
  assert (He : finger_licked (expire_lick (current_time frame) s) = true ->
               last_gesture_time (expire_lick (current_time frame) s) = 0).
  { unfold expire_lick. break_if; proj_simpl; [discriminate | exact H]. }
  revert He. generalize (expire_lick (current_time frame) s). intros e He.
  destruct (multi_hand_landmarks frame) as [hand|]; [|exact He].
  unfold process_hand.
  set (b := currently_at_lips _ _).
  assert (Hu : finger_licked (update_lick (current_time frame) b e) = true ->
               last_gesture_time (update_lick (current_time frame) b e) = 0).
  { unfold update_lick. proj_simpl.
    repeat (break_if; proj_simpl); solve [exact He | reflexivity]. }
  revert Hu. generalize (update_lick (current_time frame) b e). intros u Hu.
  unfold track_swipe, record_positions, evaluate_swipe, discard_slow,
    emit_swipe, reset_tracking.
  proj_simpl.
  repeat (break_if; proj_simpl); solve [exact Hu | discriminate].
Qed.

(** X1. After every sequence of [detect_gesture] and [reset] calls on a
    new detector, a primed detector has [last_gesture_time = 0]: the cooldown
    stamp of a swipe never coexists with the priming that the next swipe
    needs, so the cooldown test of a tracking step always compares the
    plain clock value with [gesture_cooldown]. *)
Lemma primed_without_cooldown_reachable (cs : list Call) :
  primed_without_cooldown (run init_detector cs).
Proof.
  apply (run_invariant primed_without_cooldown).
  - intros s c H. destruct c; simpl.
    + apply primed_without_cooldown_step, H.
    + unfold primed_without_cooldown, reset. proj_simpl. discriminate.
  - unfold primed_without_cooldown. reflexivity.
Qed.

(** C1 as stated fails: a swipe at 1000.5 s is followed, after a new priming
    frame, by a second swipe at 1001.1 s, 0.6 s later. *)
Lemma two_swipes_within_cooldown :
  snd (feed init_detector double_sweep) =
    [None; None; None; None; None; Some Right;
     None; None; None; None; None; Some Right] /\
  current_time (nth 5 double_sweep (empty_frame 0)) == 1000.5 /\
  current_time (nth 11 double_sweep (empty_frame 0)) == 1001.1 /\
  1001.1 - 1000.5 <= gesture_cooldown.
Proof.
  split; [vm_compute; reflexivity|].
  repeat split; vm_compute; congruence.
Qed.

(** After that swipe, the same sweep repeated without a priming frame is
    ignored. *)
Lemma no_swipe_until_primed_again_witness :
  Forall (fun out => out = None)
    (snd (feed (fst (detect_gesture armed_detector closing_frame))
            (tl (primed_right_sweep 1000.6)))).
Proof.
  apply (no_swipe_until_primed_again armed_detector _ closing_frame Right).
  - vm_compute; reflexivity.
  - repeat constructor.
Defined.

(** One step from the initial detector keeps the histories equally long. *)
Lemma histories_equal_length_witness :
  same_length (call init_detector (Detect closing_frame)).
Proof.
  apply (proj2 histories_equal_length). reflexivity.
Defined.

(** In the step that completes the sweep the classifier decides the
    outcome, and the guard holds there. *)
Lemma capacity_and_classifier_guard_witness :
  exists hand_landmarks,
    multi_hand_landmarks closing_frame = Some hand_landmarks /\
    (3 <= movement_frames
            (tracking_state armed_detector closing_frame hand_landmarks))%nat.
Proof.
  destruct (proj2 (proj2 capacity_and_classifier_guard)
              (fun _ _ => Some Right) (fun _ _ => None)
              armed_detector closing_frame) as (hand & Hh & G & _).
  - intros H. vm_compute in H. discriminate H.
  - exists hand. split; assumption.
Defined.

(** ** Hand absence (C3) *)

Lemma expire_lick_flag (now : Q) (s : GestureDetector) :
  (lick_timeout < now - lick_time s ->
   finger_licked (expire_lick now s) = false) /\
  (~ lick_timeout < now - lick_time s ->
   finger_licked (expire_lick now s) = finger_licked s).
Proof.
  unfold expire_lick. split; intros H.
  - apply Qltb_lt in H. rewrite H.
    destruct (finger_licked s) eqn:E; cbn [andb]; [reflexivity | exact E].
  - apply Qltb_nlt in H. rewrite H, andb_false_r. reflexivity.
Qed.

Lemma expire_lick_fields (now : Q) (s : GestureDetector) :
  start_x (expire_lick now s) = start_x s /\
  last_gesture_time (expire_lick now s) = last_gesture_time s /\
  gesture_started (expire_lick now s) = gesture_started s /\
  movement_frames (expire_lick now s) = movement_frames s /\
  lick_time (expire_lick now s) = lick_time s /\
  was_at_lips (expire_lick now s) = was_at_lips s.
Proof. unfold expire_lick. break_if; repeat split; reflexivity. Qed.




(** ** The priming frame (C4) *)

Lemma priming_frame_effect (s : GestureDetector) (frame : FrameInput) :
  priming_frame frame = true ->
  let now := current_time frame in
  let s' := fst (detect_gesture s frame) in
  snd (detect_gesture s frame) = None /\
  finger_licked s' = true /\
  (finger_licked s = false \/ lick_timeout < now - lick_time s ->
   lick_time s' = now /\ last_gesture_time s' = 0) /\
  (finger_licked s = true /\ ~ lick_timeout < now - lick_time s ->
   lick_time s' = lick_time s /\
   last_gesture_time s' = last_gesture_time s) /\
  position_history s' = [] /\
  thumb_history s' = [] /\
  gesture_started s' = false /\
  movement_frames s' = movement_frames s /\
  start_x s' = start_x s.
Proof.
  intros Hp now s'. subst s'. unfold priming_frame in Hp.
  unfold detect_gesture, detect_gesture_with, process_frame.
  destruct (multi_hand_landmarks frame) as [hand|]; [|discriminate].
  unfold process_hand. rewrite Hp. fold now.
  unfold track_swipe. rewrite andb_false_r. unfold reset_tracking.
  destruct (expire_lick_fields now s) as (E1 & E2 & E3 & E4 & E5 & E6).
  destruct (expire_lick_flag now s) as [F1 F2].
  revert E1 E2 E3 E4 E5 E6 F1 F2.
  generalize (expire_lick now s). intros e E1 E2 E3 E4 E5 E6 F1 F2.
  unfold update_lick. proj_simpl.
  assert (Hact : finger_licked s = true /\ ~ lick_timeout < now - lick_time s ->
                 finger_licked e = true)
    by (intros [Hf Hx]; rewrite (F2 Hx); exact Hf).
  assert (Hnew : finger_licked s = false \/ lick_timeout < now - lick_time s ->
                 finger_licked e = false).
  { intros [Hf | Hx]; [|exact (F1 Hx)].
    destruct (Qlt_le_dec lick_timeout (now - lick_time s)) as [L|L].
    - exact (F1 L).
    - rewrite (F2 (Qle_not_lt _ _ L)). exact Hf. }
  destruct (finger_licked e) eqn:Fe; proj_simpl;
    repeat split; try assumption; try reflexivity;
    match goal with
    | Hcase : _ \/ _ |- _ => apply Hnew in Hcase; discriminate Hcase
    | Hcase : _ /\ _ |- _ => apply Hact in Hcase; discriminate Hcase
    end.
Qed.

(** C4. In a step in which the priming pose is detected: the step returns
    [None] and ends primed; if priming was not active when the pose check
    ran (the flag was clear, or the expiry check of this step had just
    cleared it), the priming timestamp is the current time and
    [last_gesture_time] is 0; if priming was active (flag set and not
    expired), both stamps are unchanged; and no swipe tracking takes place:
    both histories are emptied, [gesture_started] is cleared, and the frame
    counter and start position are untouched. *)
Theorem priming_step (s : GestureDetector) (frame : FrameInput) :
  priming_frame frame = true ->
  let now := current_time frame in
  let s' := fst (detect_gesture s frame) in
  snd (detect_gesture s frame) = None /\
  finger_licked s' = true /\
  (finger_licked s = false \/ lick_timeout < now - lick_time s ->
   lick_time s' = now /\ last_gesture_time s' = 0) /\
  (finger_licked s = true /\ ~ lick_timeout < now - lick_time s ->
   lick_time s' = lick_time s /\
   last_gesture_time s' = last_gesture_time s) /\
  position_history s' = [] /\
  thumb_history s' = [] /\
  gesture_started s' = false /\
  movement_frames s' = movement_frames s /\
  start_x s' = start_x s.
Proof. apply priming_frame_effect. Qed.

(** The lick pose primes the initial detector. *)
Lemma priming_step_witness :
  finger_licked (fst (detect_gesture init_detector (hand_frame 1000 lick_hand)))
  = true.
Proof.
  apply (priming_step init_detector (hand_frame 1000 lick_hand)).
  vm_compute; reflexivity.
Defined.

(** ** Expiry of priming (C5) *)

Lemma record_positions_fields (cx tx : Q) (s : GestureDetector) :
  finger_licked (record_positions cx tx s) = finger_licked s /\
  lick_time (record_positions cx tx s) = lick_time s.
Proof.
  unfold record_positions. proj_simpl.
  repeat (break_if; proj_simpl); split; reflexivity.
Qed.

Lemma track_swipe_quiet (classify : list Q -> list Q -> option Gesture)
    (now : Q) (b : bool) (cx tx : Q) (u s' : GestureDetector) :
  track_swipe classify now b cx tx u = (s', None) ->
  finger_licked s' = finger_licked u /\ lick_time s' = lick_time u.
Proof.
  unfold track_swipe.
  destruct (record_positions_fields cx tx u) as [R1 R2]. revert R1 R2.
  generalize (record_positions cx tx u). intros r R1 R2.
  unfold evaluate_swipe, discard_slow, reset_tracking, emit_swipe.
  repeat (break_if; proj_simpl);
    intros E; try discriminate E; injection E as <-; proj_simpl;
    split; solve [assumption | reflexivity].
Qed.

Lemma update_lick_primed (now : Q) (b : bool) (s : GestureDetector) :
  finger_licked s = true ->
  finger_licked (update_lick now b s) = true /\
  lick_time (update_lick now b s) = lick_time s.
Proof.
  intros H. unfold update_lick. proj_simpl. rewrite H. proj_simpl.
  repeat (break_if; proj_simpl); split; solve [assumption | reflexivity].
Qed.

(** A primed, unexpired detector stays primed, with the same timestamp,
    through every step that emits no swipe. *)
Lemma primed_step_quiet (classify : list Q -> list Q -> option Gesture)
    (s s' : GestureDetector) (frame : FrameInput) :
  finger_licked s = true ->
  ~ lick_timeout < current_time frame - lick_time s ->
  detect_gesture_with classify s frame = (s', None) ->
  finger_licked s' = true /\ lick_time s' = lick_time s.
Proof.
  intros Hl Hx. unfold detect_gesture_with, process_frame.
  assert (He : expire_lick (current_time frame) s = s).
  { unfold expire_lick. apply Qltb_nlt in Hx. rewrite Hx, andb_false_r.
    reflexivity. }
  rewrite He.
  destruct (multi_hand_landmarks frame) as [hand|].
  - unfold process_hand. intros E. apply track_swipe_quiet in E.
    destruct E as [E1 E2]. rewrite E1, E2.
    apply update_lick_primed, Hl.
  - intros E. injection E as <-. proj_simpl. split; [exact Hl | reflexivity].
Qed.

Lemma primed_feed_quiet (t0 : Q) (frames : list FrameInput) :
  forall s : GestureDetector,
    finger_licked s = true ->
    lick_time s = t0 ->
    Forall (fun f => current_time f <= t0 + lick_timeout) frames ->
    Forall (fun g => g = None) (snd (feed s frames)) ->
    finger_licked (fst (feed s frames)) = true /\
    lick_time (fst (feed s frames)) = t0.
Proof.
  induction frames as [|f frames IH]; intros s Hl Ht Hts Hgs; simpl in *.
  - split; assumption.
  - apply Forall_cons_iff in Hts. destruct Hts as [Hf Hrest].
    destruct (detect_gesture s f) as [s1 g] eqn:E.
    destruct (feed s1 frames) as [s2 gs] eqn:F. simpl in *.
    apply Forall_cons_iff in Hgs. destruct Hgs as [Hg Hgs']. rewrite Hg in E.
    assert (Hx : ~ lick_timeout < current_time f - lick_time s).
    { rewrite Ht. intros L. apply (Qlt_not_le _ _ L). lra. }
    destruct (primed_step_quiet classify_swipe s s1 f Hl Hx E) as [Hl1 Ht1].
    rewrite Ht in Ht1.
    specialize (IH s1 Hl1 Ht1 Hrest). rewrite F in IH. simpl in IH.
    apply IH. exact Hgs'.
Qed.

(** C5, as the code has it. Let priming become active in a step at time
    [t0]. If the following steps up to time [t0 + lick_timeout] emit no
    swipe, the detector is still primed with timestamp [t0], and the first
    step at a time strictly later than [t0 + lick_timeout] clears the priming
    flag before anything else: it runs as the rest of the step would on the
    unprimed detector. *)
Theorem priming_expires (s0 : GestureDetector) (f0 : FrameInput)
    (frames : list FrameInput) (f : FrameInput) :
  let t0 := current_time f0 in
  let s1 := fst (detect_gesture s0 f0) in
  let s2 := fst (feed s1 frames) in
  priming_frame f0 = true ->
  finger_licked s0 = false \/ lick_timeout < t0 - lick_time s0 ->
  Forall (fun fr => current_time fr <= t0 + lick_timeout) frames ->
  Forall (fun g => g = None) (snd (feed s1 frames)) ->
  t0 + lick_timeout < current_time f ->
  finger_licked s2 = true /\
  lick_time s2 = t0 /\
  expire_lick (current_time f) s2 = set_finger_licked false s2 /\
  detect_gesture s2 f =
    process_frame classify_swipe (set_finger_licked false s2) f.
Proof.
  intros t0 s1 s2 Hp Hnew Hts Hgs Hlate.
  destruct (priming_frame_effect s0 f0 Hp) as (_ & Hl1 & Hstamp & _).
  destruct (Hstamp Hnew) as [Ht1 _]. fold s1 in Hl1, Ht1. fold t0 in Ht1.
  destruct (primed_feed_quiet t0 frames s1 Hl1 Ht1 Hts Hgs) as [Hl2 Ht2].
  fold s2 in Hl2, Ht2.
  assert (He : expire_lick (current_time f) s2 = set_finger_licked false s2).
  { unfold expire_lick. rewrite Hl2, Ht2.
    assert (L : lick_timeout < current_time f - t0) by lra.
    apply Qltb_lt in L. rewrite L. reflexivity. }
  repeat split; try assumption.
  unfold detect_gesture, detect_gesture_with. rewrite He. reflexivity.
Qed.

(** C5 as stated fails at the boundary: priming became active at 1000 s,
    nothing was emitted, and the step at exactly 1005 s leaves the detector
    primed. *)
Lemma expiry_boundary_counterexample :
  finger_licked init_detector = false /\
  priming_frame (hand_frame 1000 lick_hand) = true /\
  finger_licked primed_detector = true /\
  lick_time primed_detector = 1000 /\
  1000 + lick_timeout <= current_time (empty_frame 1005) /\
  finger_licked (expire_lick 1005 primed_detector) = true /\
  finger_licked (fst (detect_gesture primed_detector (empty_frame 1005)))
  = true.
Proof.
  vm_compute. repeat split; try reflexivity. discriminate.
Qed.

(** Primed at 1000 s, one tracked frame at 1000.1 s, expiry at 1006 s. *)
Lemma priming_expires_witness :
  finger_licked
    (fst (feed primed_detector [hand_frame (1000 + 0.1) (flat_hand 0.30)]))
  = true /\
  finger_licked
    (expire_lick (current_time (empty_frame 1006))
       (fst (feed primed_detector [hand_frame (1000 + 0.1) (flat_hand 0.30)])))
  = false.
Proof.
  destruct (priming_expires init_detector (hand_frame 1000 lick_hand)
              [hand_frame (1000 + 0.1) (flat_hand 0.30)] (empty_frame 1006))
    as (H1 & _ & H3 & _).
  - vm_compute; reflexivity.
  - left; reflexivity.
  - repeat constructor. vm_compute. discriminate.
  - vm_compute. repeat constructor.
  - vm_compute; reflexivity.
  - split; [exact H1|].
    change (fst (detect_gesture init_detector (hand_frame 1000 lick_hand)))
      with primed_detector in H3.
    rewrite H3. reflexivity.
Defined.

(** ** The vote-counting loop and the classifier (C2) *)

Lemma count_loop_steps (t : list Q) :
  forall (pre : list Q) (a : Q) (acc : nat * nat),
    fold_left (count_step (pre ++ a :: t))
      (seq (S (length pre)) (length t)) acc =
    fold_left vote (steps (a :: t)) acc.
Proof.
  induction t as [|b t IH]; intros pre a acc.
  - reflexivity.
  - cbn [length seq fold_left steps].
    assert (Hstep : count_step (pre ++ a :: b :: t) acc (S (length pre)) =
                    vote acc (b - a)).
    { unfold count_step, vote.
      replace (S (length pre) - 1)%nat with (length pre) by lia.
      rewrite nth_middle.
      replace (pre ++ a :: b :: t) with ((pre ++ [a]) ++ b :: t)
        by (rewrite <- app_assoc; reflexivity).
      replace (S (length pre)) with (length (pre ++ [a]))
        by (rewrite length_app; simpl; lia).
      rewrite nth_middle. reflexivity. }
    rewrite Hstep.
    specialize (IH (pre ++ [a]) b (vote acc (b - a))).
    rewrite <- app_assoc in IH. simpl app in IH.
    rewrite length_app in IH. simpl length in IH.
    replace (length pre + 1)%nat with (S (length pre)) in IH by lia.
    exact IH.
Qed.

Lemma right_excludes_left (d : Q) : Qltb 0.01 d = true -> Qltb d (-0.01) = false.
Proof.
  intros H. apply Qltb_lt in H. apply Qltb_nlt. intros L. lra.
Qed.

Lemma fold_vote (ds : list Q) :
  forall acc : nat * nat,
    fold_left vote ds acc =
    ((fst acc + length (filter (fun d => Qltb 0.01 d) ds))%nat,
     (snd acc + length (filter (fun d => Qltb d (-0.01)) ds))%nat).
Proof.
  induction ds as [|d ds IH]; intros [r l]; simpl.
  - f_equal; lia.
  - rewrite IH. unfold vote. simpl.
    destruct (Qltb 0.01 d) eqn:R.
    + rewrite (right_excludes_left d R). simpl. f_equal; lia.
    + destruct (Qltb d (-0.01)); simpl; f_equal; lia.
Qed.

(** The loop of the source counts the votes of the specification. *)
Lemma count_movements_votes (h : list Q) :
  count_movements h = (votes_right h, votes_left h).
Proof.
  unfold count_movements, votes_right, votes_left.
  destruct h as [|a t]; [reflexivity|].
  replace (length (a :: t) - 1)%nat with (length t) by (simpl; lia).
  rewrite (count_loop_steps t [] a). apply fold_vote.
Qed.

Lemma classify_swipe_votes (hf ht : list Q) :
  let Df := last hf 0 - nth 0 hf 0 in
  let nf := (votes_right hf + votes_left hf)%nat in
  let nt := (votes_right ht + votes_left ht)%nat in
  let fast := Qltb fast_swipe_threshold (Qabs Df) in
  classify_swipe hf ht =
  if (0 <? nf)%nat && (0 <? nt)%nat then
    if Qltb swipe_threshold_right Df &&
       Qltb (if fast then 0.5 else 0.6) (int_div (votes_right hf) nf) &&
       (Qltb 0.5 (int_div (votes_right hf) nf) &&
        Qltb 0.5 (int_div (votes_right ht) nt))
    then Some Right
    else if Qltb Df (- swipe_threshold_left) &&
            Qltb (if fast then 0.45 else 0.55) (int_div (votes_left hf) nf) &&
            (Qltb 0.45 (int_div (votes_left hf) nf) &&
             Qltb 0.45 (int_div (votes_left ht) nt))
    then Some Left
    else None
  else None.
Proof.
  unfold classify_swipe. rewrite !count_movements_votes. reflexivity.
Qed.



(** The examples of the specification: a sweep with the thumb moving the
    opposite way is rejected, a leftward sweep is accepted. *)
Example opposite_thumb_rejected :
  classify_swipe example_sweep (rev example_sweep) = None.
Proof. vm_compute; reflexivity. Qed.

Example left_sweep_accepted :
  classify_swipe [0.45; 0.42; 0.39; 0.35; 0.32] [0.45; 0.42; 0.39; 0.35; 0.32]
  = Some Left.
Proof. vm_compute; reflexivity. Qed.

(** ** The priming detector (C7) *)







(** The two heuristics on concrete frames: the lick pose without a face, a
    flat hand whose index fingertip is 0.02 away from the lips, and the same
    hand with the lips far away. *)
Example lick_pose_detected : currently_at_lips None lick_hand = true.
Proof. vm_compute; reflexivity. Qed.

Example finger_on_lips_detected :
  currently_at_lips (lip_region_of (Some (face_with_lips 0.5 0.62)))
    (flat_hand 0.3) = true.
Proof. vm_compute; reflexivity. Qed.

Example finger_far_from_lips :
  currently_at_lips (lip_region_of (Some (face_with_lips 0.5 0.1)))
    (flat_hand 0.3) = false.
Proof. vm_compute; reflexivity. Qed.

(** * Further properties of the detector *)

(** ** What a step does to the histories *)

Lemma record_positions_finger (cx tx : Q) (s : GestureDetector) :
  position_history (record_positions cx tx s) =
  if (history_size <? length (position_history s ++ [cx]))%nat
  then tl (position_history s ++ [cx])
  else position_history s ++ [cx].
Proof.
  unfold record_positions. proj_simpl.
  repeat (break_if; proj_simpl); reflexivity.
Qed.

Lemma record_positions_thumb (cx tx : Q) (s : GestureDetector) :
  thumb_history (record_positions cx tx s) =
  if (history_size <? length (thumb_history s ++ [tx]))%nat
  then tl (thumb_history s ++ [tx])
  else thumb_history s ++ [tx].
Proof.
  unfold record_positions. proj_simpl.
  repeat (break_if; proj_simpl); solve [reflexivity | congruence].
Qed.

Lemma tracking_state_histories (s : GestureDetector) (frame : FrameInput)
    (hand : NormalizedLandmarkList) :
  position_history (tracking_state s frame hand) =
    position_history
      (record_positions (x (at_index hand 12)) (x (at_index hand 4)) s) /\
  thumb_history (tracking_state s frame hand) =
    thumb_history
      (record_positions (x (at_index hand 12)) (x (at_index hand 4)) s).
Proof.
  unfold tracking_state. cbv zeta. proj_simpl.
  set (u := update_lick _ _ _).
  assert (Hu : position_history u = position_history s /\
               thumb_history u = thumb_history s).
  { subst u.
    destruct (update_lick_histories (current_time frame)
                (currently_at_lips (lip_region_of (multi_face_landmarks frame)) hand)
                (expire_lick (current_time frame) s)) as [U1 U2].
    destruct (expire_lick_histories (current_time frame) s) as [E1 E2].
    split; congruence. }
  destruct Hu as [U1 U2].
  rewrite !record_positions_finger, !record_positions_thumb, U1, U2.
  split; reflexivity.
Qed.

(** After a step, the histories are those of the state before (no hand),
    or empty, or those of [tracking_state]. *)
Lemma step_history_cases (classify : list Q -> list Q -> option Gesture)
    (s : GestureDetector) (frame : FrameInput) :
  let s' := fst (detect_gesture_with classify s frame) in
  match multi_hand_landmarks frame with
  | None =>
      position_history s' = position_history s /\
      thumb_history s' = thumb_history s
  | Some hand =>
      (position_history s' = [] /\ thumb_history s' = []) \/
      (position_history s' = position_history (tracking_state s frame hand) /\
       thumb_history s' = thumb_history (tracking_state s frame hand))
  end.
Proof.
  cbv zeta. unfold detect_gesture_with, process_frame.
  destruct (multi_hand_landmarks frame) as [hand|].
  - unfold tracking_state, process_hand. cbv zeta.
    set (u := update_lick _ _ _).
    unfold track_swipe.
    generalize (record_positions (x (at_index hand 12))
                  (x (at_index hand 4)) u). intros r.
    unfold evaluate_swipe, discard_slow, emit_swipe, reset_tracking.
    proj_simpl.
    repeat (break_if; proj_simpl);
      solve [ left; split; reflexivity | right; split; reflexivity ].
  - proj_simpl. apply expire_lick_histories.
Qed.



Lemma record_positions_length (cx tx : Q) (s : GestureDetector) :
  (length (position_history (record_positions cx tx s))
   <= length (position_history s) + 1)%nat.
Proof.
  rewrite record_positions_finger.
  break_if; rewrite ?length_tl, length_app; simpl; lia.
Qed.

(** ** What a step that emits a swipe has seen *)

Lemma expire_lick_primed (now : Q) (s : GestureDetector) :
  finger_licked (expire_lick now s) = true ->
  finger_licked s = true /\ ~ lick_timeout < now - lick_time s.
Proof.
  unfold expire_lick. destruct (finger_licked s) eqn:F; cbn [andb].
  - destruct (Qltb lick_timeout (now - lick_time s)) eqn:E; proj_simpl.
    + discriminate.
    + intros _. split; [reflexivity | apply Qltb_nlt, E].
  - rewrite F. discriminate.
Qed.

Lemma emission_conditions (classify : list Q -> list Q -> option Gesture)
    (s s' : GestureDetector) (frame : FrameInput) (g : Gesture) :
  detect_gesture_with classify s frame = (s', Some g) ->
  exists hand,
    multi_hand_landmarks frame = Some hand /\
    currently_at_lips (lip_region_of (multi_face_landmarks frame)) hand = false /\
    finger_licked s = true /\
    ~ lick_timeout < current_time frame - lick_time s /\
    gesture_started s = true /\
    ~ current_time frame - last_gesture_time s <= gesture_cooldown /\
    classify (position_history (tracking_state s frame hand))
             (thumb_history (tracking_state s frame hand)) = Some g /\
    (min_frames <= movement_frames s + 1)%nat /\
    (5 <= length (position_history (tracking_state s frame hand)))%nat.
Proof.
  unfold detect_gesture_with, process_frame.
  destruct (multi_hand_landmarks frame) as [hand|]; [|discriminate].
  intros H. exists hand. split; [reflexivity|].
  unfold tracking_state. cbv zeta. unfold process_hand in H.
  set (now := current_time frame) in *.
  set (b := currently_at_lips _ _) in *.
  destruct (expire_lick_fields now s) as (_ & E2 & E3 & E4 & _ & _).
  pose proof (expire_lick_primed now s) as Ep.
  revert E2 E3 E4 Ep H. generalize (expire_lick now s).
  intros e E2 E3 E4 Ep H.
  unfold track_swipe in H.
  destruct (finger_licked (update_lick now b e) && negb b) eqn:Hc;
    [|discriminate].
  apply andb_true_iff in Hc. destruct Hc as [Hu Hb].
  destruct b; [discriminate|]. clear Hb.
  assert (Hfields : finger_licked (update_lick now false e) = finger_licked e /\
                    gesture_started (update_lick now false e) = gesture_started e /\
                    movement_frames (update_lick now false e) = movement_frames e /\
                    last_gesture_time (update_lick now false e) =
                      last_gesture_time e).
  { unfold update_lick. break_if; proj_simpl; repeat split; reflexivity. }
  destruct Hfields as (U1 & U2 & U3 & U4).
  rewrite U1 in Hu. destruct (Ep Hu) as [Hl Hx].
  revert U1 U2 U3 U4 H. generalize (update_lick now false e).
  intros u U1 U2 U3 U4 H.
  assert (Hr : gesture_started (record_positions (x (at_index hand 12))
                                  (x (at_index hand 4)) u) = gesture_started u /\
               movement_frames (record_positions (x (at_index hand 12))
                                  (x (at_index hand 4)) u) = movement_frames u /\
               last_gesture_time (record_positions (x (at_index hand 12))
                                  (x (at_index hand 4)) u) = last_gesture_time u).
  { unfold record_positions. proj_simpl.
    repeat (break_if; proj_simpl); repeat split; reflexivity. }
  destruct Hr as (R1 & R2 & R3).
  revert R1 R2 R3 H.
  generalize (record_positions (x (at_index hand 12)) (x (at_index hand 4)) u).
  intros r R1 R2 R3 H.
  destruct (negb (gesture_started r)) eqn:Hs; [discriminate|].
  apply negb_false_iff in Hs.
  unfold evaluate_swipe in H. proj_simpl.
  destruct (Qleb (now - last_gesture_time r) gesture_cooldown) eqn:Hcd;
    [discriminate|].
  destruct (Nat.leb_spec min_frames (movement_frames r + 1)) as [G1|G1];
    [|discriminate].
  destruct (Nat.leb_spec 5 (length (position_history r))) as [G2|G2];
    [|discriminate].
  destruct (Nat.leb_spec 5 (length (thumb_history r))) as [G3|G3];
    [|discriminate].
  cbn [andb] in H.
  destruct (classify (position_history r) (thumb_history r)) as [g'|] eqn:Hcl;
    [|discriminate].
  injection H as _ Hg. subst g'.
  apply Qleb_nle in Hcd.
  repeat split; try assumption; try congruence.
  rewrite <- E2, <- U4, <- R3. exact Hcd.
Qed.



(** ** Direction of an emitted swipe *)

Lemma classify_swipe_right (hf ht : list Q) :
  classify_swipe hf ht = Some Right ->
  swipe_threshold_right < last hf 0 - nth 0 hf 0 /\
  (0 < votes_right hf + votes_left hf)%nat /\
  (0 < votes_right ht + votes_left ht)%nat /\
  0.5 < int_div (votes_right hf) (votes_right hf + votes_left hf) /\
  0.5 < int_div (votes_right ht) (votes_right ht + votes_left ht).
Proof.
  rewrite classify_swipe_votes. cbv zeta.
  destruct (Nat.ltb_spec 0 (votes_right hf + votes_left hf)) as [N1|N1];
    [|discriminate].
  destruct (Nat.ltb_spec 0 (votes_right ht + votes_left ht)) as [N2|N2];
    [|discriminate].
  cbn [andb].
  match goal with
  | |- (if ?c then _ else _) = _ -> _ => destruct c eqn:C
  end.
  - intros _. rewrite !andb_true_iff, !Qltb_lt in C.
    destruct C as ((A & _) & B & B'). repeat split; assumption.
  - break_if; discriminate.
Qed.

Lemma classify_swipe_left (hf ht : list Q) :
  classify_swipe hf ht = Some Left ->
  last hf 0 - nth 0 hf 0 < - swipe_threshold_left.
Proof.
  rewrite classify_swipe_votes. cbv zeta.
  match goal with
  | |- (if ?c then _ else _) = _ -> _ => destruct c; [|discriminate]
  end.
  match goal with
  | |- (if ?c then _ else _) = _ -> _ => destruct c; [discriminate|]
  end.
  match goal with
  | |- (if ?c then _ else _) = _ -> _ => destruct c eqn:C; [|discriminate]
  end.
  intros _. rewrite !andb_true_iff, !Qltb_lt in C.
  destruct C as ((A & _) & _). exact A.
Qed.




(** ** A hand at rest *)

Lemma Forall_tl {A : Type} (P : A -> Prop) (l : list A) :
  Forall P l -> Forall P (tl l).
Proof. intros H. destruct H; [constructor | assumption]. Qed.

Lemma constant_ends (v : Q) (h : list Q) :
  Forall (fun a => a = v) h -> (1 <= length h)%nat ->
  nth 0 h 0 = v /\ last h 0 = v.
Proof.
  intros H Hl. split.
  - destruct H; simpl in *; [lia | assumption].
  - induction H as [|a l Ha Hrest IH]; simpl in *; [lia|].
    destruct l as [|b l]; [exact Ha|]. apply IH. simpl. lia.
Qed.

Lemma resting_record (v tx : Q) (s : GestureDetector) :
  Forall (fun a => a = v) (position_history s) ->
  Forall (fun a => a = v) (position_history (record_positions v tx s)).
Proof.
  intros H. rewrite record_positions_finger.
  assert (Ha : Forall (fun a => a = v) (position_history s ++ [v]))
    by (apply Forall_app; split; [exact H | repeat constructor]).
  break_if; [apply Forall_tl|]; exact Ha.
Qed.

Lemma resting_step (v : Q) (s : GestureDetector) (frame : FrameInput) :
  Forall (fun a => a = v) (position_history s) ->
  finger_rests_at v frame ->
  snd (detect_gesture s frame) = None /\
  Forall (fun a => a = v) (position_history (fst (detect_gesture s frame))).
Proof.
  intros Hs Hf. unfold finger_rests_at in Hf. split.
  - destruct (detect_gesture s frame) as [s' [g|]] eqn:E; [|reflexivity].
    exfalso.
    destruct (emission_conditions classify_swipe s s' frame g E)
      as (hand & Hh & _ & _ & _ & _ & _ & Hc & _ & Hlen).
    rewrite Hh in Hf.
    destruct (tracking_state_histories s frame hand) as [Hp _].
    rewrite Hf in Hp.
    assert (Hall : Forall (fun a => a = v)
                     (position_history (tracking_state s frame hand)))
      by (rewrite Hp; apply resting_record, Hs).
    destruct (constant_ends v _ Hall) as [H0 Hlast]; [lia|].
    destruct g.
    + apply classify_swipe_left in Hc. rewrite H0, Hlast in Hc.
      unfold swipe_threshold_left in Hc. lra.
    + apply classify_swipe_right in Hc. destruct Hc as [Hc _].
      rewrite H0, Hlast in Hc. unfold swipe_threshold_right in Hc. lra.
  - pose proof (step_history_cases classify_swipe s frame) as Hcases.
    cbv zeta in Hcases. fold (detect_gesture s frame) in Hcases.
    destruct (multi_hand_landmarks frame) as [hand|].
    + destruct Hcases as [[-> _] | [-> _]]; [constructor|].
      destruct (tracking_state_histories s frame hand) as [-> _].
      rewrite Hf. apply resting_record, Hs.
    + destruct Hcases as [-> _]. exact Hs.
Qed.

(** X4. A tracked finger that does not move never turns the page: if
    every sample in the finger history equals [v] (in particular if the
    history is empty) and every following frame shows no hand or a hand
    whose tracked fingertip is at [v], no step emits a swipe - whatever the
    thumb, the priming and the clock do. *)
Theorem resting_finger_never_swipes (v : Q) (frames : list FrameInput) :
  forall s : GestureDetector,
    Forall (fun a => a = v) (position_history s) ->
    Forall (finger_rests_at v) frames ->
    Forall (fun g => g = None) (snd (feed s frames)).
Proof.
  induction frames as [|f frames IH]; intros s Hs Hf; simpl.
  - constructor.
  - apply Forall_cons_iff in Hf. destruct Hf as [Hf Hrest].
    destruct (resting_step v s f Hs Hf) as [Hg Hs'].
    destruct (detect_gesture s f) as [s1 g]. simpl in Hg, Hs'.
    specialize (IH s1 Hs' Hrest).
    destruct (feed s1 frames) as [s2 gs]. simpl in *.
    constructor; assumption.
Qed.

(** Priming, then the flat hand held at 0.30 for three frames. *)
Lemma resting_finger_never_swipes_witness :
  Forall (fun g => g = None)
    (snd (feed primed_detector
            [hand_frame 1000.1 (flat_hand 0.30);
             hand_frame 1000.2 (flat_hand 0.30);
             hand_frame 1000.3 (flat_hand 0.30)])).
Proof.
  apply (resting_finger_never_swipes 0.30).
  - vm_compute. constructor.
  - repeat constructor.
Defined.

(** ** How soon a swipe can come *)

Lemma step_history_growth (s : GestureDetector) (frame : FrameInput) :
  (length (position_history (fst (detect_gesture s frame)))
   <= length (position_history s) + 1)%nat.
Proof.
  pose proof (step_history_cases classify_swipe s frame) as Hcases.
  cbv zeta in Hcases. fold (detect_gesture s frame) in Hcases.
  destruct (multi_hand_landmarks frame) as [hand|].
  - destruct Hcases as [[-> _] | [-> _]]; [simpl; lia|].
    destruct (tracking_state_histories s frame hand) as [-> _].
    apply record_positions_length.
  - destruct Hcases as [-> _]. lia.
Qed.

Lemma emission_needs_samples (s s' : GestureDetector) (frame : FrameInput)
    (g : Gesture) :
  detect_gesture s frame = (s', Some g) ->
  (4 <= length (position_history s))%nat.
Proof.
  intros H.
  destruct (emission_conditions classify_swipe s s' frame g H)
    as (hand & _ & _ & _ & _ & _ & _ & _ & _ & Hlen).
  destruct (tracking_state_histories s frame hand) as [Hp _].
  rewrite Hp in Hlen.
  pose proof (record_positions_length (x (at_index hand 12))
                (x (at_index hand 4)) s). lia.
Qed.

(** X5. A swipe needs five samples: from a detector whose finger history
    holds [n] samples, the first [4 - n] steps emit nothing. From an empty
    history - the state after [reset], after a swipe and after every frame
    in the priming pose - the first four steps are silent. *)
Theorem swipe_needs_five_samples (frames : list FrameInput) :
  forall s : GestureDetector,
    (length (position_history s) + length frames <= 4)%nat ->
    Forall (fun g => g = None) (snd (feed s frames)).
Proof.
  induction frames as [|f frames IH]; intros s Hlen; simpl in *.
  - constructor.
  - pose proof (step_history_growth s f) as Hg.
    destruct (detect_gesture s f) as [s1 g] eqn:E. simpl in Hg.
    assert (IH1 : Forall (fun g => g = None) (snd (feed s1 frames)))
      by (apply IH; lia).
    destruct (feed s1 frames) as [s2 gs]. simpl in *.
    constructor; [|exact IH1].
    destruct g as [g|]; [|reflexivity].
    apply emission_needs_samples in E. lia.
Qed.

(** The first four frames of the sweep after priming are silent. *)
Lemma swipe_needs_five_samples_witness :
  Forall (fun g => g = None)
    (snd (feed primed_detector (firstn 4 (tl (primed_right_sweep 1000))))).
Proof.
  apply swipe_needs_five_samples. vm_compute. repeat constructor.
Defined.

(** ** The frame counter of a gesture in progress *)

Lemma track_swipe_frame_bound (classify : list Q -> list Q -> option Gesture)
    (now : Q) (b : bool) (cx tx : Q) (u : GestureDetector) :
  gesture_started (fst (track_swipe classify now b cx tx u)) = true ->
  (movement_frames (fst (track_swipe classify now b cx tx u)) <= max_frames)%nat.
Proof.
  unfold track_swipe.
  generalize (record_positions cx tx u). intros r.
  unfold evaluate_swipe, discard_slow, emit_swipe, reset_tracking.
  proj_simpl.
  repeat (break_if; proj_simpl); intros H; try discriminate H; nat_tests;
    unfold max_frames in *; lia.
Qed.

(** X7. A gesture in progress is never older than [max_frames] frames:
    after every step, from any state, [gesture_started] implies that the
    frame counter is at most 25. *)
Theorem tracking_never_exceeds_max_frames (s : GestureDetector)
    (frame : FrameInput) :
  gesture_started (fst (detect_gesture s frame)) = true ->
  (movement_frames (fst (detect_gesture s frame)) <= 25)%nat.
Proof.
  unfold detect_gesture, detect_gesture_with, process_frame.
  destruct (multi_hand_landmarks frame) as [hand|].
  - unfold process_hand. apply track_swipe_frame_bound.
  - proj_simpl. discriminate.
Qed.

(** The first tracked frame after priming starts the count at 0. *)
Lemma tracking_never_exceeds_max_frames_witness :
  (movement_frames
     (fst (detect_gesture primed_detector (hand_frame 1000.1 (flat_hand 0.30))))
   <= 25)%nat.
Proof.
  apply tracking_never_exceeds_max_frames. vm_compute; reflexivity.
Defined.

(** ** Frames without a hand *)




(** ** One priming per swipe *)

Lemma priming_budget_step (s : GestureDetector) (frame : FrameInput) :
  ((match snd (detect_gesture s frame) with Some _ => 1 | None => 0 end) +
   (if finger_licked (fst (detect_gesture s frame)) then 1 else 0)
   <= (if priming_frame frame then 1 else 0) +
      (if finger_licked s then 1 else 0))%nat.
Proof.
  destruct (detect_gesture s frame) as [s' [g|]] eqn:E; cbn [fst snd].
  - destruct (detect_emits classify_swipe s s' frame g E) as (_ & _ & -> & _).
    destruct (emission_conditions classify_swipe s s' frame g E)
      as (_ & _ & _ & -> & _).
    destruct (priming_frame frame); simpl; lia.
  - destruct (priming_frame frame) eqn:P;
      [destruct (finger_licked s'), (finger_licked s); simpl; lia|].
    destruct (finger_licked s) eqn:L;
      [destruct (finger_licked s'); simpl; lia|].
    destruct (unprimed_step_silent classify_swipe s frame L P) as [_ H].
    fold (detect_gesture s frame) in H. rewrite E in H. simpl in H.
    rewrite H. simpl. lia.
Qed.

Lemma priming_budget (frames : list FrameInput) :
  forall s : GestureDetector,
    (count_swipes (snd (feed s frames)) +
     (if finger_licked (fst (feed s frames)) then 1 else 0)
     <= count_priming frames + (if finger_licked s then 1 else 0))%nat.
Proof.
  induction frames as [|f frames IH]; intros s; simpl.
  - unfold count_swipes, count_priming. simpl. lia.
  - pose proof (priming_budget_step s f) as Hstep.
    destruct (detect_gesture s f) as [s1 g]. cbn [fst snd] in Hstep.
    specialize (IH s1). destruct (feed s1 frames) as [s2 gs].
    cbn [fst snd] in *.
    unfold count_swipes, count_priming in *. simpl.
    destruct g as [g|]; destruct (priming_frame f); simpl in *; lia.
Qed.

(** X10. Every swipe consumes a priming: over any run of frames fed to a
    fresh detector, the number of swipes emitted is at most the number of
    frames in which the priming pose was detected; from any other state it
    is at most one more. *)
Theorem swipes_bounded_by_primings (frames : list FrameInput) :
  (count_swipes (snd (feed init_detector frames)) <= count_priming frames)%nat /\
  (forall s : GestureDetector,
      count_swipes (snd (feed s frames)) <= count_priming frames + 1)%nat.
Proof.
  split.
  - pose proof (priming_budget frames init_detector) as H. simpl in H. lia.
  - intros s. pose proof (priming_budget frames s) as H.
    destruct (finger_licked s); lia.
Qed.

(** ** [reset] gives a fresh detector *)

Ltac fields_agree :=
  repeat split;
  first [ assumption | reflexivity | congruence
        | intros; first [congruence | auto] ].

Section SameBehaviour.

Variable classify : list Q -> list Q -> option Gesture.

Lemma same_behaviour_expire (now : Q) (a b : GestureDetector) :
  same_behaviour a b ->
  same_behaviour (expire_lick now a) (expire_lick now b).
Proof.
  unfold same_behaviour. intros (H1 & H2 & H3 & H4 & H5 & H6 & H7 & H8).
  unfold expire_lick. rewrite <- H5.
  destruct (finger_licked a) eqn:Fa; cbn [andb].
  - rewrite <- (H6 eq_refl).
    destruct (Qltb lick_timeout (now - lick_time a)); proj_simpl; fields_agree.
  - fields_agree.
Qed.

Lemma same_behaviour_update (now : Q) (f : bool) (a b : GestureDetector) :
  same_behaviour a b ->
  same_behaviour (update_lick now f a) (update_lick now f b).
Proof.
  unfold same_behaviour. intros (H1 & H2 & H3 & H4 & H5 & H6 & H7 & H8).
  unfold update_lick. proj_simpl. rewrite <- H5.
  destruct f.
  - destruct (finger_licked a) eqn:Fa; proj_simpl; fields_agree.
  - destruct (was_at_lips a && finger_licked a),
             (was_at_lips b && finger_licked a); proj_simpl; fields_agree.
Qed.

Lemma same_behaviour_record (cx tx : Q) (a b : GestureDetector) :
  same_behaviour a b ->
  same_behaviour (record_positions cx tx a) (record_positions cx tx b).
Proof.
  unfold same_behaviour. intros (H1 & H2 & H3 & H4 & H5 & H6 & H7 & H8).
  unfold record_positions. proj_simpl. rewrite <- H7, <- H8.
  repeat (break_if; proj_simpl); fields_agree.
Qed.

Lemma same_behaviour_track (now : Q) (f : bool) (cx tx : Q)
    (a b : GestureDetector) :
  same_behaviour a b ->
  snd (track_swipe classify now f cx tx a) =
  snd (track_swipe classify now f cx tx b) /\
  same_behaviour (fst (track_swipe classify now f cx tx a))
                 (fst (track_swipe classify now f cx tx b)).
Proof.
  intros H. pose proof (same_behaviour_record cx tx a b H) as Hr.
  unfold track_swipe. revert Hr.
  generalize (record_positions cx tx a), (record_positions cx tx b).
  intros ra rb Hr. unfold same_behaviour in *.
  destruct H as (H1 & H2 & H3 & H4 & H5 & H6 & H7 & H8).
  destruct Hr as (R1 & R2 & R3 & R4 & R5 & R6 & R7 & R8).
  rewrite <- H5.
  destruct (finger_licked a && negb f).
  - rewrite <- R3. destruct (negb (gesture_started ra)).
    + proj_simpl. split; [reflexivity | fields_agree].
    + unfold evaluate_swipe. proj_simpl.
      rewrite <- R2, <- R4, <- R7, <- R8.
      destruct (Qleb (now - last_gesture_time ra) gesture_cooldown).
      * unfold discard_slow, reset_tracking. proj_simpl. rewrite <- ?R4.
        break_if; proj_simpl; (split; [reflexivity | fields_agree]).
      * destruct (_ && _ && _).
        -- destruct (classify (position_history ra) (thumb_history ra)).
           ++ unfold discard_slow, reset_tracking, emit_swipe. proj_simpl.
              rewrite <- ?R4.
              break_if; proj_simpl; (split; [reflexivity | fields_agree]).
           ++ unfold discard_slow, reset_tracking. proj_simpl. rewrite <- ?R4.
              break_if; proj_simpl; (split; [reflexivity | fields_agree]).
        -- unfold discard_slow, reset_tracking. proj_simpl. rewrite <- ?R4.
           break_if; proj_simpl; (split; [reflexivity | fields_agree]).
  - unfold reset_tracking. proj_simpl. split; [reflexivity | fields_agree].
Qed.

Lemma same_behaviour_step (a b : GestureDetector) (frame : FrameInput) :
  same_behaviour a b ->
  snd (detect_gesture_with classify a frame) =
  snd (detect_gesture_with classify b frame) /\
  same_behaviour (fst (detect_gesture_with classify a frame))
                 (fst (detect_gesture_with classify b frame)).
Proof.
  intros H. unfold detect_gesture_with, process_frame.
  apply (same_behaviour_expire (current_time frame)) in H.
  revert H. generalize (expire_lick (current_time frame) a),
    (expire_lick (current_time frame) b). intros a1 b1 H.
  destruct (multi_hand_landmarks frame) as [hand|].
  - unfold process_hand. apply same_behaviour_track, same_behaviour_update, H.
  - split; [reflexivity|]. unfold same_behaviour in *. proj_simpl.
    destruct H as (H1 & H2 & H3 & H4 & H5 & H6 & H7 & H8).
    fields_agree.
Qed.

End SameBehaviour.

Lemma same_behaviour_feed (frames : list FrameInput) :
  forall a b : GestureDetector,
    same_behaviour a b ->
    snd (feed a frames) = snd (feed b frames).
Proof.
  induction frames as [|f frames IH]; intros a b H; simpl.
  - reflexivity.
  - destruct (same_behaviour_step classify_swipe a b f H) as [Hg Hs].
    fold (detect_gesture a f) in Hg, Hs. fold (detect_gesture b f) in Hg, Hs.
    destruct (detect_gesture a f) as [a1 ga].
    destruct (detect_gesture b f) as [b1 gb]. cbn [fst snd] in *.
    specialize (IH a1 b1 Hs).
    destruct (feed a1 frames) as [a2 gas].
    destruct (feed b1 frames) as [b2 gbs]. cbn [snd] in *.
    congruence.
Qed.

(** X6. After [reset] the detector answers every sequence of frames
    exactly as a newly constructed one does, whatever state it was in:
    the attributes [reset] leaves alone ([lick_time], [was_at_lips],
    [previous_x]) have no influence on the gestures returned. *)
Theorem reset_behaves_as_new (s : GestureDetector) (frames : list FrameInput) :
  snd (feed (reset s) frames) = snd (feed init_detector frames).
Proof.
  apply same_behaviour_feed. unfold same_behaviour, reset. proj_simpl.
  repeat split; try reflexivity. discriminate.
Qed.

(** ** Holding the priming pose *)

(** X9. Holding the priming pose changes nothing after the first frame:
    a second frame in the pose, within [lick_timeout] of the first, returns
    [None] and leaves the detector exactly as the first frame left it, so
    the priming timestamp is not pushed forward. *)
Theorem priming_pose_is_stable (s : GestureDetector) (f1 f2 : FrameInput) :
  priming_frame f1 = true ->
  priming_frame f2 = true ->
  ~ lick_timeout
    < current_time f2 - lick_time (fst (detect_gesture s f1)) ->
  detect_gesture (fst (detect_gesture s f1)) f2 =
  (fst (detect_gesture s f1), None).
Proof.
  intros P1 P2.
  unfold priming_frame in P1, P2.
  unfold detect_gesture, detect_gesture_with, process_frame.
  destruct (multi_hand_landmarks f1) as [h1|]; [|discriminate].
  destruct (multi_hand_landmarks f2) as [h2|]; [|discriminate].
  unfold process_hand. rewrite P1, P2.
  generalize (expire_lick (current_time f1) s). intros e.
  unfold track_swipe. rewrite !andb_false_r. cbn [fst].
  set (s1 := reset_tracking (update_lick (current_time f1) true e)).
  intros Hx.
  assert (Hl : finger_licked s1 = true).
  { subst s1. unfold reset_tracking, update_lick. proj_simpl.
    destruct (finger_licked e) eqn:Fe; proj_simpl; rewrite ?Fe; reflexivity. }
  assert (Hw : was_at_lips s1 = true).
  { subst s1. unfold reset_tracking, update_lick. proj_simpl.
    destruct (finger_licked e) eqn:Fe; proj_simpl; rewrite ?Fe; reflexivity. }
  assert (Hg : gesture_started s1 = false) by reflexivity.
  assert (Hp : position_history s1 = []) by reflexivity.
  assert (Ht : thumb_history s1 = []) by reflexivity.
  assert (He : expire_lick (current_time f2) s1 = s1).
  { unfold expire_lick. apply Qltb_nlt in Hx. rewrite Hx, andb_false_r.
    reflexivity. }
  rewrite He. cbn [fst snd]. f_equal.
  unfold update_lick. cbv zeta. proj_simpl. rewrite Hl. cbn [negb].
  unfold reset_tracking at 1.
  clearbody s1. destruct s1 as [p0 s0 l0 g0 m0 fl0 t0 w0 h0 u0].
  proj_simpl. subst. reflexivity.
Qed.

(** The lick pose held at 1000 s and 1000.1 s. *)
Lemma priming_pose_is_stable_witness :
  detect_gesture primed_detector (hand_frame 1000.1 lick_hand) =
  (primed_detector, None).
Proof.
  apply (priming_pose_is_stable init_detector (hand_frame 1000 lick_hand)
           (hand_frame 1000.1 lick_hand)).
  - vm_compute; reflexivity.
  - vm_compute; reflexivity.
  - vm_compute. discriminate.
Defined.

(** * Further properties of page navigation and display *)

Section PageViewFacts.

Context {Image : Type}.
Implicit Types (p : PDF.PDFProcessor Image) (ps : list Image).

Lemma py_index_in_range {A : Type} (l : list A) (i : Z) :
  (0 <= i < Z.of_nat (length l))%Z ->
  py_index l i = nth_error l (Z.to_nat i) /\
  exists a, nth_error l (Z.to_nat i) = Some a.
Proof.
  intros H. unfold py_index. cbv zeta.
  destruct (Z.leb_spec 0 i); [|lia].
  destruct (Z.ltb_spec i (Z.of_nat (length l))); [|lia].
  split; [reflexivity|].
  destruct (nth_error l (Z.to_nat i)) as [a|] eqn:E; [exists a; reflexivity|].
  apply nth_error_None in E. lia.
Qed.

Lemma reachable_processor ps (cs : list PDF.Nav) :
  ps <> [] ->
  PDF.pages (PDF.navigate (PDF.init ps) cs) = ps /\
  (0 <= PDF.current_page (PDF.navigate (PDF.init ps) cs)
   < Z.of_nat (length ps))%Z.
Proof.
  intros Hne.
  destruct (navigate_invariant cs (PDF.init ps) (init_in_range ps Hne))
    as [Hr Hp].
  simpl in Hp. split; [exact Hp|].
  unfold PDF.in_range, PDF.get_page_count in Hr. rewrite Hp in Hr. lia.
Qed.

Lemma empty_processor (cs : list PDF.Nav) :
  PDF.navigate (PDF.init (@nil Image)) cs = PDF.init [].
Proof.
  induction cs as [|c cs IH]; [reflexivity|].
  simpl. destruct c; exact IH.
Qed.

(** X11. [get_current_page] never answers [None] on a processor reached
    from a fresh one over a PDF with at least one page by [next_page] and
    [previous_page] calls: it returns the page at [current_page]. Over a
    PDF without pages it always answers [None]. *)
Theorem current_page_available ps (cs : list PDF.Nav) :
  (ps <> [] ->
   exists img,
     get_current_page (PDF.navigate (PDF.init ps) cs) = Some img /\
     nth_error ps
       (Z.to_nat (PDF.current_page (PDF.navigate (PDF.init ps) cs)))
     = Some img) /\
  get_current_page (PDF.navigate (PDF.init (@nil Image)) cs) = None.
Proof.
  split.
  - intros Hne. destruct (reachable_processor ps cs Hne) as [Hp Hr].
    unfold get_current_page. rewrite Hp.
    destruct (Z.leb_spec 0 (PDF.current_page (PDF.navigate (PDF.init ps) cs)));
      [|lia].
    destruct (Z.ltb_spec (PDF.current_page (PDF.navigate (PDF.init ps) cs))
                (Z.of_nat (length ps))); [|lia].
    cbn [andb].
    destruct (py_index_in_range ps _ Hr) as [E [img Himg]].
    exists img. rewrite E. split; exact Himg.
  - rewrite empty_processor. reflexivity.
Qed.

(** X12. Away from the ends, turning forward and back is a round trip:
    if the spread two pages ahead exists, [previous_page] after
    [next_page] restores the processor, both returning [True]; and if the
    index is at least 2 and in range, so does [next_page] after
    [previous_page]. *)
Theorem turn_round_trip p :
  ((0 <= PDF.current_page p)%Z ->
   (PDF.current_page p + 2 <= PDF.get_page_count p - 1)%Z ->
   snd (PDF.next_page p) = true /\
   PDF.previous_page (fst (PDF.next_page p)) = (p, true)) /\
  ((2 <= PDF.current_page p <= PDF.get_page_count p - 1)%Z ->
   snd (PDF.previous_page p) = true /\
   PDF.next_page (fst (PDF.previous_page p)) = (p, true)).
Proof.
  destruct p as [ps c]. unfold PDF.get_page_count. simpl.
  split.
  - intros H0 H2. unfold PDF.next_page, PDF.get_page_count. simpl.
    destruct (Z.ltb_spec c (Z.of_nat (length ps) - 1)); [|lia].
    simpl. split; [reflexivity|].
    unfold PDF.previous_page. simpl.
    destruct (Z.ltb_spec 0 (Z.min (c + 2) (Z.of_nat (length ps) - 1)));
      [|lia].
    do 2 f_equal. lia.
  - intros H. unfold PDF.previous_page. simpl.
    destruct (Z.ltb_spec 0 c); [|lia].
    simpl. split; [reflexivity|].
    unfold PDF.next_page, PDF.get_page_count. simpl.
    destruct (Z.ltb_spec (Z.max (c - 2) 0) (Z.of_nat (length ps) - 1));
      [|lia].
    do 2 f_equal. lia.
Qed.

Lemma nexts_from p (k : nat) :
  (0 <= PDF.current_page p <= PDF.get_page_count p - 1)%Z ->
  PDF.pages (PDF.navigate p (repeat PDF.Next k)) = PDF.pages p /\
  PDF.current_page (PDF.navigate p (repeat PDF.Next k)) =
  Z.min (PDF.current_page p + 2 * Z.of_nat k) (PDF.get_page_count p - 1).
Proof.
  revert p. induction k as [|k IH]; intros p H.
  - simpl. split; [reflexivity | lia].
  - cbn [repeat PDF.navigate fold_left]. fold (PDF.navigate (PDF.nav p PDF.Next) (repeat PDF.Next k)).
    assert (Hn : PDF.pages (PDF.nav p PDF.Next) = PDF.pages p /\
                 PDF.current_page (PDF.nav p PDF.Next) =
                 Z.min (PDF.current_page p + 2) (PDF.get_page_count p - 1)).
    { unfold PDF.nav, PDF.next_page.
      destruct (Z.ltb_spec (PDF.current_page p) (PDF.get_page_count p - 1));
        simpl; split; try reflexivity; lia. }
    destruct Hn as [Hp Hc].
    assert (Hcount : PDF.get_page_count (PDF.nav p PDF.Next) =
                     PDF.get_page_count p)
      by (unfold PDF.get_page_count; rewrite Hp; reflexivity).
    destruct (IH (PDF.nav p PDF.Next)) as [IHp IHc];
      [rewrite Hcount, Hc; lia|].
    rewrite IHp, IHc, Hcount, Hc, Hp. split; [reflexivity | lia].
Qed.

(** X13. Paging forward from the start: after [k] calls of [next_page] on
    a fresh processor over [n >= 1] pages, [current_page] is
    [min (2 * k) (n - 1)]; so the last page is reached after
    [ceil ((n - 1) / 2)] calls and further calls change nothing. *)
Theorem paging_forward ps (k : nat) :
  ps <> [] ->
  PDF.current_page (after_nexts ps k) =
  Z.min (2 * Z.of_nat k) (Z.of_nat (length ps) - 1).
Proof.
  intros Hne. unfold after_nexts.
  destruct (nexts_from (PDF.init ps) k) as [_ Hc].
  - pose proof (init_in_range ps Hne) as H. exact H.
  - rewrite Hc. unfold PDF.get_page_count. simpl. lia.
Qed.

End PageViewFacts.

(** Three pages: two calls reach the last page, a third stays there. *)
Lemma paging_forward_witness :
  PDF.current_page (after_nexts [tt; tt; tt] 3) = 2%Z.
Proof.
  rewrite (paging_forward [tt; tt; tt] 3); [reflexivity | discriminate].
Defined.

(** Five pages, at page index 2: forward to 4 and back to 2. *)
Lemma turn_round_trip_witness :
  PDF.previous_page
    (fst (PDF.next_page (PDF.mkPDF unit [tt; tt; tt; tt; tt] 2)))
  = (PDF.mkPDF unit [tt; tt; tt; tt; tt] 2, true).
Proof.
  apply (proj1 (turn_round_trip (PDF.mkPDF unit [tt; tt; tt; tt; tt] 2)));
    simpl; lia.
Defined.

(** A two-page PDF after one forward turn shows its second page. *)
Lemma current_page_available_witness :
  exists img,
    get_current_page (PDF.navigate (PDF.init [1%nat; 2%nat]) [PDF.Next])
    = Some img.
Proof.
  destruct (proj1 (current_page_available [1%nat; 2%nat] [PDF.Next]))
    as (img & H & _).
  - discriminate.
  - exists img. exact H.
Defined.

Section SpreadFacts.

Context {Image : Type}.
Implicit Types (p : PDF.PDFProcessor Image) (ps : list Image).

(** X14. A PDF without pages: every [next_page] and [previous_page] call
    returns [False] and leaves the processor at [current_page = 0], and
    [render_book] selects no page and no page number, without an
    [IndexError]. *)
Theorem empty_pdf_is_inert (cs : list PDF.Nav) :
  let p := PDF.navigate (PDF.init (@nil Image)) cs in
  p = PDF.init [] /\
  PDF.next_page p = (p, false) /\
  PDF.previous_page p = (p, false) /\
  select_spread p = Some (mkSpread None None None None).
Proof.
  cbv zeta. rewrite empty_processor. repeat split; reflexivity.
Qed.

Lemma select_spread_even p :
  (0 <= PDF.current_page p < PDF.get_page_count p)%Z ->
  (PDF.current_page p mod 2 = 0)%Z ->
  select_spread p =
  Some (mkSpread
          (if (0 <? PDF.current_page p)%Z
           then nth_error (PDF.pages p) (Z.to_nat (PDF.current_page p - 1))
           else None)
          (if (0 <? PDF.current_page p)%Z
           then Some (PDF.current_page p) else None)
          (nth_error (PDF.pages p) (Z.to_nat (PDF.current_page p)))
          (Some (PDF.current_page p + 1)%Z)).
Proof.
  intros Hr He. unfold select_spread. cbv zeta. rewrite He. cbn [Z.eqb].
  unfold PDF.get_page_count in *.
  destruct (py_index_in_range (PDF.pages p) (PDF.current_page p) Hr)
    as [E1 [img1 N1]].
  destruct (Z.ltb_spec (PDF.current_page p) (Z.of_nat (length (PDF.pages p))));
    [|lia].
  rewrite E1, N1. cbn [option_map].
  destruct (Z.ltb_spec 0 (PDF.current_page p)) as [Hpos|Hpos].
  - destruct (py_index_in_range (PDF.pages p) (PDF.current_page p - 1))
      as [E0 [img0 N0]]; [lia|].
    rewrite E0, N0. reflexivity.
  - reflexivity.
Qed.

Lemma select_spread_odd p :
  (0 <= PDF.current_page p < PDF.get_page_count p)%Z ->
  (PDF.current_page p mod 2 <> 0)%Z ->
  select_spread p =
  Some (mkSpread
          (nth_error (PDF.pages p) (Z.to_nat (PDF.current_page p)))
          (Some (PDF.current_page p + 1)%Z)
          (if (PDF.current_page p + 1 <? PDF.get_page_count p)%Z
           then nth_error (PDF.pages p) (Z.to_nat (PDF.current_page p + 1))
           else None)
          (if (PDF.current_page p + 1 <? PDF.get_page_count p)%Z
           then Some (PDF.current_page p + 2)%Z else None)).
Proof.
  intros Hr Ho. unfold select_spread. cbv zeta.
  destruct (Z.eqb_spec (PDF.current_page p mod 2) 0) as [E|_]; [contradiction|].
  unfold PDF.get_page_count in *.
  destruct (py_index_in_range (PDF.pages p) (PDF.current_page p) Hr)
    as [E1 [img1 N1]].
  rewrite E1, N1.
  destruct (Z.ltb_spec (PDF.current_page p + 1)
              (Z.of_nat (length (PDF.pages p)))) as [Hn|Hn].
  - destruct (py_index_in_range (PDF.pages p) (PDF.current_page p + 1))
      as [E2 [img2 N2]]; [lia|].
    rewrite E2, N2. reflexivity.
  - reflexivity.
Qed.

(** X15. On a processor whose index is in range (as navigation keeps it),
    the page selection of [render_book] raises no [IndexError] and always
    shows the current page, labelled [current_page + 1]: on the right for an
    even index, with page [current_page - 1] labelled [current_page] on the
    left unless the index is 0; on the left for an odd index, with page
    [current_page + 1] labelled [current_page + 2] on the right unless the
    current page is the last. *)
Theorem spread_shows_current_page p :
  (0 <= PDF.current_page p < PDF.get_page_count p)%Z ->
  let c := PDF.current_page p in
  let page (i : Z) := nth_error (PDF.pages p) (Z.to_nat i) in
  exists sp img,
    select_spread p = Some sp /\
    page c = Some img /\
    get_current_page p = Some img /\
    ((c mod 2 = 0)%Z ->
     right_page sp = Some img /\ right_page_num sp = Some (c + 1)%Z /\
     ((0 < c)%Z ->
      left_page sp = page (c - 1)%Z /\ left_page sp <> None /\
      left_page_num sp = Some c) /\
     (c = 0%Z -> left_page sp = None /\ left_page_num sp = None)) /\
    ((c mod 2 <> 0)%Z ->
     left_page sp = Some img /\ left_page_num sp = Some (c + 1)%Z /\
     ((c + 1 < PDF.get_page_count p)%Z ->
      right_page sp = page (c + 1)%Z /\ right_page sp <> None /\
      right_page_num sp = Some (c + 2)%Z) /\
     (c = (PDF.get_page_count p - 1)%Z ->
      right_page sp = None /\ right_page_num sp = None)).
Proof.
  intros Hr c page.
  destruct (py_index_in_range (PDF.pages p) c) as [E1 [img N1]];
    [unfold PDF.get_page_count in Hr; exact Hr|].
  assert (Hg : get_current_page p = Some img).
  { unfold get_current_page. fold c. unfold PDF.get_page_count in Hr.
    destruct (Z.leb_spec 0 c); [|lia].
    destruct (Z.ltb_spec c (Z.of_nat (length (PDF.pages p)))); [|lia].
    cbn [andb]. rewrite E1. exact N1. }
  destruct (Z.eq_dec (c mod 2) 0) as [He|Ho].
  - exists (mkSpread
              (if (0 <? c)%Z then page (c - 1)%Z else None)
              (if (0 <? c)%Z then Some c else None)
              (page c) (Some (c + 1)%Z)), img.
    split; [apply (select_spread_even p Hr He)|].
    split; [exact N1|]. split; [exact Hg|].
    split; [|intros Ho; contradiction].
    intros _. cbn [right_page right_page_num left_page left_page_num].
    split; [exact N1|]. split; [reflexivity|]. split.
    + intros Hpos. destruct (Z.ltb_spec 0 c); [|lia].
      repeat split.
      destruct (py_index_in_range (PDF.pages p) (c - 1)) as [_ [img0 N0]];
        [unfold PDF.get_page_count in Hr; lia|].
      unfold page. rewrite N0. discriminate.
    + intros ->. split; reflexivity.
  - exists (mkSpread
              (page c) (Some (c + 1)%Z)
              (if (c + 1 <? PDF.get_page_count p)%Z
               then page (c + 1)%Z else None)
              (if (c + 1 <? PDF.get_page_count p)%Z
               then Some (c + 2)%Z else None)), img.
    split; [apply (select_spread_odd p Hr Ho)|].
    split; [exact N1|]. split; [exact Hg|].
    split; [intros He; contradiction|].
    intros _. cbn [right_page right_page_num left_page left_page_num].
    split; [exact N1|]. split; [reflexivity|]. split.
    + intros Hn. destruct (Z.ltb_spec (c + 1) (PDF.get_page_count p)); [|lia].
      repeat split.
      destruct (py_index_in_range (PDF.pages p) (c + 1)) as [_ [img2 N2]];
        [unfold PDF.get_page_count in Hr, Hn; lia|].
      unfold page. rewrite N2. discriminate.
    + intros Hlast.
      destruct (Z.ltb_spec (c + 1) (PDF.get_page_count p)); [lia|].
      split; reflexivity.
Qed.

(** X16. No page is skipped: every page of a PDF is shown in the spread
    reached from the start by some number of [next_page] calls. *)
Theorem every_page_is_shown ps (i : nat) :
  (i < length ps)%nat ->
  exists (k : nat) sp,
    select_spread (after_nexts ps k) = Some sp /\
    nth_error ps i <> None /\
    (left_page sp = nth_error ps i \/ right_page sp = nth_error ps i).
Proof.
  intros Hi.
  assert (Hne : ps <> []) by (destruct ps; [simpl in Hi; lia | discriminate]).
  assert (Hsome : nth_error ps i <> None) by (apply nth_error_Some; exact Hi).
  pose (k := ((i + 1) / 2)%nat).
  assert (Hk : (2 * k = i \/ 2 * k = i + 1)%nat).
  { subst k. pose proof (Nat.div_mod_eq (i + 1) 2) as Hd.
    pose proof (Nat.mod_upper_bound (i + 1) 2). lia. }
  destruct (nexts_from (PDF.init ps) k) as [Hp Hc];
    [apply (init_in_range ps Hne)|].
  fold (after_nexts ps k) in Hp, Hc.
  unfold PDF.get_page_count in Hc.
  cbn [PDF.pages PDF.current_page PDF.init] in Hp, Hc.
  assert (Hr : (0 <= PDF.current_page (after_nexts ps k)
                < PDF.get_page_count (after_nexts ps k))%Z)
    by (unfold PDF.get_page_count; rewrite Hp, Hc; lia).
  exists k.
  destruct (Z.eq_dec (PDF.current_page (after_nexts ps k) mod 2) 0)
    as [He|Ho].
  - eexists. split; [apply (select_spread_even _ Hr He)|].
    split; [exact Hsome|].
    cbn [left_page right_page]. rewrite Hp.
    destruct Hk as [Hk|Hk].
    + right. f_equal. lia.
    + assert (Hcur : PDF.current_page (after_nexts ps k) = Z.of_nat (i + 1))
        by (revert He; rewrite Hc; intros He;
            Z.div_mod_to_equations; lia).
      left. rewrite Hcur.
      destruct (Z.ltb_spec 0 (Z.of_nat (i + 1))); [|lia].
      f_equal. lia.
  - eexists. split; [apply (select_spread_odd _ Hr Ho)|].
    split; [exact Hsome|].
    cbn [left_page right_page]. rewrite Hp. left. f_equal.
    revert Ho. rewrite Hc. intros Ho. Z.div_mod_to_equations. lia.
Qed.

End SpreadFacts.

(** Seven pages, at page index 3. *)
Lemma spread_shows_current_page_witness :
  exists sp img,
    select_spread (PDF.mkPDF nat [1; 2; 3; 4; 5; 6; 7]%nat 3) = Some sp /\
    left_page sp = Some img.
Proof.
  destruct (spread_shows_current_page
              (PDF.mkPDF nat [1; 2; 3; 4; 5; 6; 7]%nat 3))
    as (sp & img & Hs & _ & _ & _ & Ho).
  - unfold PDF.get_page_count. simpl. lia.
  - exists sp, img. split; [exact Hs|]. apply Ho. simpl. discriminate.
Defined.

(** The fourth of four pages is shown after two turns. *)
Lemma every_page_is_shown_witness :
  exists (k : nat) sp,
    select_spread (after_nexts [1; 2; 3; 4]%nat k) = Some sp /\
    (left_page sp = Some 4%nat \/ right_page sp = Some 4%nat).
Proof.
  destruct (every_page_is_shown [1; 2; 3; 4]%nat 3) as (k & sp & Hs & _ & Hshown).
  - simpl. lia.
  - exists k, sp. split; [exact Hs | exact Hshown].
Defined.

(** * Window events *)

Lemma handle_events_skip (pre rest : list Event) :
  Forall (fun e => decisive e = false) pre ->
  handle_events (pre ++ rest) = handle_events rest.
Proof.
  induction 1 as [|e pre He Hpre IH]; [reflexivity|].
  simpl. destruct e as [|[| |]|]; try discriminate He; exact IH.
Qed.

(** X17. [handle_events] is decided by the first event among window close,
    Escape and Space: it returns [True] exactly when the batch holds none of
    them; otherwise it returns what that first event asks for and drops
    every event after it, so that a close request queued behind a Space
    keypress in the same batch is lost. *)
Theorem first_decisive_event_wins :
  (forall events,
      handle_events events = RTrue <->
      Forall (fun e => decisive e = false) events) /\
  (forall pre e post,
      Forall (fun e' => decisive e' = false) pre ->
      decisive e = true ->
      handle_events (pre ++ e :: post) =
      match e with KEYDOWN K_SPACE => Rtoggle_webcam | _ => RFalse end).
Proof.
  split.
  - intros events. split.
    + induction events as [|e events IH]; intros H; [constructor|].
      destruct e as [|[| |]|]; simpl in H; try discriminate H;
        (constructor; [reflexivity | apply IH, H]).
    + intros H. rewrite <- (app_nil_r events).
      rewrite (handle_events_skip events [] H). reflexivity.
  - intros pre e post Hpre He.
    rewrite (handle_events_skip pre (e :: post) Hpre).
    destruct e as [|[| |]|]; try discriminate He; reflexivity.
Qed.

(** A mouse event, then Space, then a close request: the toggle wins. *)
Lemma first_decisive_event_wins_witness :
  handle_events ([OtherEvent] ++ KEYDOWN K_SPACE :: [QUIT]) = Rtoggle_webcam.
Proof.
  apply (proj2 first_decisive_event_wins [OtherEvent] (KEYDOWN K_SPACE) [QUIT]).
  - repeat constructor.
  - reflexivity.
Defined.

(** * The text fallback *)

Section TextImageFacts.

Import TextImage.

Lemma combine_firstn {A B : Type} (l : list A) (l' : list B) (n : nat) :
  (length l <= n)%nat -> combine l (firstn n l') = combine l l'.
Proof.
  revert l' n. induction l as [|a l IH]; intros l' n H; [reflexivity|].
  destruct n as [|n]; [simpl in H; lia|].
  destruct l' as [|b l']; [reflexivity|].
  simpl. f_equal. apply IH. simpl in H. lia.
Qed.

Lemma draw_lines_closed (lines : list String.string) :
  forall j : nat,
    (j <= 46)%nat ->
    draw_lines lines (50 + 20 * Z.of_nat j)%Z =
    map (fun il => (10%Z, (50 + 20 * Z.of_nat (fst il))%Z,
                    String.substring 0 80 (snd il)))
        (combine (seq j (46 - j)) lines).
Proof.
  induction lines as [|line lines IH]; intros j Hj.
  - simpl. rewrite combine_nil. reflexivity.
  - cbn [draw_lines].
    destruct (Z.ltb_spec 950 (50 + 20 * Z.of_nat j)) as [Hy|Hy].
    + assert (j = 46)%nat by lia. subst j. reflexivity.
    + assert (Hlt : (j < 46)%nat) by lia.
      replace (46 - j)%nat with (S (46 - S j)) by lia.
      cbn [seq combine map fst snd]. f_equal.
      replace (50 + 20 * Z.of_nat j + 20)%Z with (50 + 20 * Z.of_nat (S j))%Z
        by lia.
      apply IH. lia.
Qed.

Lemma substring_length_le (m : nat) (s : String.string) :
  (String.length (String.substring 0 m s) <= m)%nat.
Proof.
  revert s. induction m as [|m IH]; intros s.
  - destruct s; simpl; lia.
  - destruct s as [|c s]; simpl; [lia|]. specialize (IH s). lia.
Qed.

(** X18. The text fallback draws the header ["Page n"] at (10, 10) and
    then the first 46 lines of the text and no more - the 47th to 50th line
    that the slice [lines[:50]] lets through are cut off by the ordinate
    limit - the [i]-th line (from 0) at (10, 50 + 20 i), cut to at most 80
    characters. *)
Theorem text_image_layout (text : String.string) (page_num : Z) :
  create_text_image text page_num =
  (10%Z, 10%Z, page_header page_num)
    :: map (fun il => (10%Z, (50 + 20 * Z.of_nat (fst il))%Z,
                       String.substring 0 80 (snd il)))
         (combine (seq 0 46) (split_lines text)) /\
  (length (create_text_image text page_num) <= 47)%nat /\
  Forall (fun call =>
            (50 <= snd (fst call) <= 950)%Z /\
            (String.length (snd call) <= 80)%nat)
         (tl (create_text_image text page_num)).
Proof.
  assert (E : create_text_image text page_num =
    (10%Z, 10%Z, page_header page_num)
      :: map (fun il => (10%Z, (50 + 20 * Z.of_nat (fst il))%Z,
                         String.substring 0 80 (snd il)))
           (combine (seq 0 46) (split_lines text))).
  { unfold create_text_image. f_equal.
    rewrite (draw_lines_closed _ 0) by lia.
    rewrite combine_firstn by (rewrite length_seq; lia). reflexivity. }
  split; [exact E|]. rewrite E. split.
  - cbn [length]. rewrite length_map, length_combine, length_seq. lia.
  - cbn [tl]. apply Forall_forall. intros call Hin.
    apply in_map_iff in Hin. destruct Hin as ([i line] & <- & Hin).
    apply in_combine_l in Hin. apply in_seq in Hin.
    cbn [fst snd]. split; [lia | apply substring_length_le].
Qed.

End TextImageFacts.

(** * The main loop *)

Section MainLoopFacts.

Context {Image : Type}.
Implicit Types (app : Main.PDFBookReader Image) (ps : list Image).

Lemma iteration_fields app (t : Main.Tick) :
  Main.gesture_detector (Main.iteration app t) =
    fst (detect_gesture (Main.gesture_detector app) (Main.tick_frame t)) /\
  Main.pdf_processor (Main.iteration app t) =
    PDF.handle_gesture
      (snd (detect_gesture (Main.gesture_detector app) (Main.tick_frame t)))
      (Main.pdf_processor app).
Proof.
  unfold Main.iteration.
  destruct (detect_gesture (Main.gesture_detector app) (Main.tick_frame t))
    as [d g].
  destruct (handle_events (Main.tick_events t)); split; reflexivity.
Qed.

Lemma handle_gesture_in_range (g : option Gesture)
    (p : PDF.PDFProcessor Image) :
  PDF.in_range p ->
  PDF.in_range (PDF.handle_gesture g p) /\
  PDF.pages (PDF.handle_gesture g p) = PDF.pages p.
Proof.
  intros H. destruct g as [[|]|].
  - split; [apply (in_range_nav p PDF.Next H) | apply (pages_nav p PDF.Next)].
  - split; [apply (in_range_nav p PDF.Previous H)
           | apply (pages_nav p PDF.Previous)].
  - split; [exact H | reflexivity].
Qed.

Lemma select_spread_in_range (p : PDF.PDFProcessor Image) :
  (0 <= PDF.current_page p < PDF.get_page_count p)%Z ->
  select_spread p <> None.
Proof.
  intros Hr.
  destruct (Z.eq_dec (PDF.current_page p mod 2) 0) as [He|Ho].
  - rewrite (select_spread_even p Hr He). discriminate.
  - rewrite (select_spread_odd p Hr Ho). discriminate.
Qed.

Lemma run_in_range (ticks : list Main.Tick) :
  forall app,
    PDF.pages (Main.pdf_processor app) <> [] ->
    PDF.in_range (Main.pdf_processor app) ->
    Forall (fun sp => sp <> None) (snd (Main.run app ticks)) /\
    PDF.in_range (Main.pdf_processor (fst (Main.run app ticks))) /\
    PDF.pages (Main.pdf_processor (fst (Main.run app ticks))) =
    PDF.pages (Main.pdf_processor app).
Proof.
  assert (Hstop : forall app,
             PDF.in_range (Main.pdf_processor app) ->
             Forall (fun sp : option (Spread Image) => sp <> None) [] /\
             PDF.in_range (Main.pdf_processor app) /\
             PDF.pages (Main.pdf_processor app) =
             PDF.pages (Main.pdf_processor app))
    by (intros a Ha; split; [constructor | split; [exact Ha | reflexivity]]).
  induction ticks as [|t ticks IH]; intros app Hne Hr; cbn [Main.run].
  - apply Hstop, Hr.
  - destruct (Main.running app); [|apply Hstop, Hr].
    destruct (Main.ret t); [|apply Hstop, Hr].
    destruct (iteration_fields app t) as [_ Hp].
    destruct (handle_gesture_in_range
                (snd (detect_gesture (Main.gesture_detector app)
                        (Main.tick_frame t)))
                (Main.pdf_processor app) Hr) as [Hr' Hp'].
    rewrite <- Hp in Hr', Hp'.
    assert (Hne' : PDF.pages (Main.pdf_processor (Main.iteration app t)) <> [])
      by (rewrite Hp'; exact Hne).
    destruct (IH (Main.iteration app t) Hne' Hr') as (I1 & I2 & I3).
    destruct (Main.run (Main.iteration app t) ticks) as [final shown].
    cbn [fst snd] in *. split; [|split; [exact I2 | congruence]].
    constructor; [|exact I1].
    apply select_spread_in_range.
    unfold PDF.in_range, PDF.get_page_count in *.
    destruct (PDF.pages (Main.pdf_processor (Main.iteration app t)));
      [contradiction | simpl length in *; lia].
Qed.

(** X19. The application never leaves the book: started on a PDF with at
    least one page, whatever the camera, the gestures and the window events
    do, every iteration of the main loop renders a spread without an
    [IndexError], and the loop ends with the same pages and a page index in
    [0, page_count - 1]. *)
Theorem main_loop_stays_in_book ps (ticks : list Main.Tick) :
  ps <> [] ->
  Forall (fun sp => sp <> None) (snd (Main.run (Main.new_app ps) ticks)) /\
  PDF.pages (Main.pdf_processor (fst (Main.run (Main.new_app ps) ticks))) = ps /\
  (0 <= PDF.current_page
          (Main.pdf_processor (fst (Main.run (Main.new_app ps) ticks)))
   <= Z.of_nat (length ps) - 1)%Z.
Proof.
  intros Hne.
  destruct (run_in_range ticks (Main.new_app ps) Hne (init_in_range ps Hne))
    as (H1 & H2 & H3).
  cbn [Main.new_app Main.pdf_processor PDF.pages PDF.init] in H3.
  split; [exact H1|]. split; [exact H3|].
  unfold PDF.in_range, PDF.get_page_count in H2. rewrite H3 in H2. exact H2.
Qed.

Lemma page_change_needs_gesture (g : option Gesture)
    (p : PDF.PDFProcessor Image) :
  ((if (PDF.current_page p =? PDF.current_page (PDF.handle_gesture g p))%Z
    then 0 else 1)
   <= match g with Some _ => 1 | None => 0 end)%nat.
Proof.
  destruct g as [g|]; simpl.
  - break_if; lia.
  - rewrite Z.eqb_refl. lia.
Qed.

Lemma page_turn_budget (ticks : list Main.Tick) :
  forall app,
    (Main.count_changes (PDF.current_page (Main.pdf_processor app))
       (Main.page_trace app ticks)
     <= count_priming (map Main.tick_frame ticks) +
        (if finger_licked (Main.gesture_detector app) then 1 else 0))%nat.
Proof.
  induction ticks as [|t ticks IH]; intros app; cbn [Main.page_trace map].
  - simpl. lia.
  - destruct (Main.running app && Main.ret t); [|simpl; lia].
    cbn [Main.count_changes].
    destruct (iteration_fields app t) as [Hd Hp].
    specialize (IH (Main.iteration app t)). rewrite Hd in IH.
    pose proof (priming_budget_step (Main.gesture_detector app)
                  (Main.tick_frame t)) as Hb.
    pose proof (page_change_needs_gesture
                  (snd (detect_gesture (Main.gesture_detector app)
                          (Main.tick_frame t)))
                  (Main.pdf_processor app)) as Hc.
    rewrite <- Hp in Hc.
    unfold count_priming in *. cbn [filter].
    destruct (priming_frame (Main.tick_frame t)); cbn [length] in *; lia.
Qed.

(** X20. Every page turn on screen has its own priming: over any run of
    the main loop from start-up, the number of times the page index changes
    from one iteration to the next is at most the number of frames in which
    the priming pose was detected. *)
Theorem page_turns_bounded_by_primings ps (ticks : list Main.Tick) :
  (Main.count_changes 0 (Main.page_trace (Main.new_app ps) ticks)
   <= count_priming (map Main.tick_frame ticks))%nat.
Proof.
  pose proof (page_turn_budget ticks (Main.new_app ps)) as H.
  cbn [Main.new_app Main.pdf_processor Main.gesture_detector PDF.init
       PDF.current_page init_detector finger_licked] in H.
  lia.
Qed.

End MainLoopFacts.

(** A primed sweep in front of a three-page PDF, then a window close. *)
Lemma main_loop_stays_in_book_witness :
  PDF.pages
    (Main.pdf_processor
       (fst (Main.run (Main.new_app [1; 2; 3]%nat)
               (map (fun f => Main.mkTick true f []) (primed_right_sweep 1000)
                ++ [Main.mkTick true (empty_frame 1001) [QUIT]]))))
  = [1; 2; 3]%nat.
Proof.
  apply (main_loop_stays_in_book [1; 2; 3]%nat). discriminate.
Defined.
